(** * RegisterAlo: the bilingual university intake form

    A shallow embedding of the TypeScript/React sources

      - [context/LanguageContext]  (LanguageProvider, useLanguage)
      - [pages/Home]               (Home)
      - [components/UniversityIntakeForm]    (Arabic variant)
      - [components/UniversityIntakeFormEn]  (English variant)

    and the properties of the submission record, the language switch and
    the print action that the specification states about them.

    Conventions.
    - A JavaScript string is a [string]; non-ASCII text is kept as the
      UTF-8 bytes of the source file, which is injective on the strings
      that occur here, so string equality is the one of the program.
    - JSX is kept as an element tree ([Dom.Node]).  [className] is styling
      and is dropped; every other attribute written in the source is kept.
    - The DOM state of a mounted form is the list of its form controls in
      tree order ([Dom.Control]); [new FormData(form)] walks that list.
    - A JavaScript object used as a record is a [gmap string string];
      [data[key] = value] is [<[key:=value]> data]. *)

From Stdlib Require Import Ascii.
From stdpp Require Import base strings gmap list.

Set Warnings "-register-all,-clear-no-such-hyp".

(** ** JavaScript completions *)

Module JS.

(** The outcome of running a piece of JavaScript: a normal completion
    with a value, or a thrown error with its message. *)
Inductive Completion (A : Type) : Type :=
| Normal (a : A)
| Throw (message : string).
Arguments Normal {A} a.
Arguments Throw {A} message.

#[global] Instance completion_ret : MRet Completion := @Normal.
#[global] Instance completion_bind : MBind Completion :=
  λ A B f c, match c with Normal a => f a | Throw m => Throw m end.


(** A global identifier is bound to a value or is not declared at all. *)
Definition Binding (A : Type) : Type := option A.

(** [typeof x] on a bare identifier never throws, also when [x] is not
    declared: it answers ["undefined"]. *)
Definition typeof {A} (b : Binding A) : string :=
  match b with Some _ => "object" | None => "undefined" end.

(** Reading the identifier itself throws a ReferenceError when it is not
    declared. *)
Definition resolve {A} (x : string) (b : Binding A) : Completion A :=
  match b with
  | Some a => Normal a
  | None => Throw (x +:+ " is not defined")
  end.

End JS.

(** ** context/LanguageContext *)

Module LanguageContext.
Import JS.

(** [type AppLanguage = 'ar' | 'en'] *)
Inductive AppLanguage := ar | en.

#[global] Instance AppLanguage_eq_dec : EqDecision AppLanguage.
Proof. solve_decision. Defined.

(** The state cell created by [useState<AppLanguage>('ar')]. *)
Definition useState_initial : AppLanguage := ar.

(** [interface LanguageContextValue]: the active language and its
    setter.  The setter is the state update it performs on the
    provider's cell. *)
Record LanguageContextValue := {
  language : AppLanguage;
  setLanguage : AppLanguage → AppLanguage → AppLanguage
}.

(** [createContext<LanguageContextValue | undefined>(undefined)]: what
    [useContext] answers is the value of the nearest provider, or the
    default [undefined] when there is none. *)
Definition LanguageContext : Type := option LanguageContextValue.
Definition createContext_default : LanguageContext := None.

(** [LanguageProvider]: given the current content of its state cell,
    the context value it passes down. *)
Definition LanguageProvider (cell : AppLanguage) : LanguageContext :=
  Some {| language := cell; setLanguage := λ l _, l |}.

(** [useLanguage]: [if (!ctx) throw new Error(...)]; a context value is
    an object, hence truthy. *)
Definition useLanguage (ctx : LanguageContext) : Completion LanguageContextValue :=
  match ctx with
  | None => Throw "useLanguage must be used within a LanguageProvider"
  | Some v => Normal v
  end.

End LanguageContext.

(** ** The DOM of a form *)

Module Dom.

Inductive InputType := text | number | date | tel | email | checkbox | radio.
Inductive Tag := div | label | span | p.
Inductive Dir := rtl | ltr.

#[global] Instance InputType_eq_dec : EqDecision InputType.
Proof. solve_decision. Defined.

(** The JSX element tree.  [FormSection] and [Field] are the layout
    wrappers of the two form files (identical in both): a titled card
    and a labelled row around their children. *)
Inductive Node :=
| El (tag : Tag) (children : list Node)
| Txt (s : string)
| Input (type : InputType) (name : string) (value : option string)
        (min max : option Z) (placeholder : option string)
| Textarea (name : string) (rows : nat) (placeholder : option string)
| Button (children : list Node)
| Field (label : string) (hint : option string) (required : bool)
        (children : list Node)
| FormSection (title : string) (description : option string)
              (children : list Node).

(** [<form dir=... onSubmit={handleSubmit}>] *)
Record Form := { dir : Dir; children : list Node }.

(** *** Form controls and their state *)

Inductive ControlKind := KInput (type : InputType) | KTextarea.

#[global] Instance ControlKind_eq_dec : EqDecision ControlKind.
Proof. solve_decision. Defined.

(** A form control of the live DOM: for a checkbox or radio button
    [ctl_value] is its [value] attribute and [ctl_checked] its
    checkedness; for the other controls [ctl_value] is the current
    value, as the DOM holds it. *)
Record Control := {
  ctl_kind : ControlKind;
  ctl_name : string;
  ctl_value : string;
  ctl_checked : bool
}.

#[global] Instance Control_eq_dec : EqDecision Control.
Proof. solve_decision. Defined.

Definition is_checkable (k : ControlKind) : bool :=
  match k with
  | KInput checkbox | KInput radio => true
  | _ => false
  end.

Definition is_textual (k : ControlKind) : bool := negb (is_checkable k).

(** The control an [<input>] element creates.  Without a [value]
    attribute a checkbox or radio button has the value ["on"] and any
    other input starts empty; no input of the source has [checked]. *)
Definition mount_input (type : InputType) (name : string)
    (value : option string) : Control :=
  {| ctl_kind := KInput type;
     ctl_name := name;
     ctl_value := default (if is_checkable (KInput type) then "on" else "") value;
     ctl_checked := false |}.

(** The controls of a freshly mounted tree, in tree order. *)
Fixpoint mount (n : Node) : list Control :=
  match n with
  | El _ cs => flat_map mount cs
  | Txt _ => []
  | Input type name value _ _ _ => [mount_input type name value]
  | Textarea name _ _ =>
      [{| ctl_kind := KTextarea; ctl_name := name;
          ctl_value := ""; ctl_checked := false |}]
  | Button _ => []
  | Field _ _ _ cs => flat_map mount cs
  | FormSection _ _ cs => flat_map mount cs
  end.

Definition mount_form (f : Form) : list Control :=
  flat_map mount (children f).

(** *** What the user does to a mounted form *)

Inductive UserAction :=
| TypeText (name value : string)
| ToggleCheckbox (name value : string)
| SelectRadio (name value : string).

Definition is_radio (name value : string) (c : Control) : bool :=
  bool_decide (ctl_kind c = KInput radio)
  && bool_decide (ctl_name c = name)
  && bool_decide (ctl_value c = value).

(** The effect of one action on one control.  Typing replaces the value
    of the textual control of that name; clicking a checkbox flips it;
    clicking a radio button checks it and unchecks the other radio
    buttons of its group (same name, same form). *)
Definition act_on (a : UserAction) (c : Control) : Control :=
  match a with
  | TypeText n v =>
      if is_textual (ctl_kind c) && bool_decide (ctl_name c = n)
      then {| ctl_kind := ctl_kind c; ctl_name := ctl_name c;
              ctl_value := v; ctl_checked := ctl_checked c |}
      else c
  | ToggleCheckbox n v =>
      if bool_decide (ctl_kind c = KInput checkbox)
         && bool_decide (ctl_name c = n) && bool_decide (ctl_value c = v)
      then {| ctl_kind := ctl_kind c; ctl_name := ctl_name c;
              ctl_value := ctl_value c; ctl_checked := negb (ctl_checked c) |}
      else c
  | SelectRadio n v =>
      if bool_decide (ctl_kind c = KInput radio) && bool_decide (ctl_name c = n)
      then {| ctl_kind := ctl_kind c; ctl_name := ctl_name c;
              ctl_value := ctl_value c;
              ctl_checked := bool_decide (ctl_value c = v) |}
      else c
  end.

(** An action that names a radio button the form does not have clicks
    nothing. *)
Definition applicable (a : UserAction) (cs : list Control) : bool :=
  match a with
  | SelectRadio n v => existsb (is_radio n v) cs
  | _ => true
  end.

Definition user_action (cs : list Control) (a : UserAction) : list Control :=
  if applicable a cs then map (act_on a) cs else cs.

Definition user_actions (cs : list Control) (acts : list UserAction)
    : list Control :=
  foldl user_action cs acts.

(** *** FormData *)

(** [new FormData(form)]: the entry list of the form.  In tree order,
    a control without a name is skipped, a checkbox or radio button
    contributes its [value] when it is checked and nothing otherwise,
    and every other control contributes its current value, the empty
    string included. *)
Definition entry (c : Control) : list (string * string) :=
  if bool_decide (ctl_name c = "") then []
  else if is_checkable (ctl_kind c) && negb (ctl_checked c) then []
  else [(ctl_name c, ctl_value c)].

Definition FormData (cs : list Control) : list (string * string) :=
  flat_map entry cs.

(** [const data = {}; formData.forEach((value, key) => { data[key] = value })] *)
Definition collect (formData : list (string * string)) : gmap string string :=
  foldl (λ data e, <[e.1 := e.2]> data) ∅ formData.

(** What [handleSubmit] does, up to the console message of the variant:
    [event.preventDefault()], then the record is built and logged. *)
Record SubmitEffects := {
  defaultPrevented : bool;
  logged : list (string * gmap string string)
}.

Definition handleSubmit_with (message : string) (currentTarget : list Control)
    : SubmitEffects :=
  let formData := FormData currentTarget in
  let data := collect formData in
  {| defaultPrevented := true; logged := [(message, data)] |}.

(** *** The host's print facility *)

(** [window.print(): void]: the host opens its print dialog; [H] is
    whatever state the host keeps. *)
Record Window (H : Type) := { print : H → H }.
Arguments print {H} _ _.

(** The global scope the handler runs in: [window] may be absent. *)
Record GlobalEnv (H : Type) := { window : JS.Binding (Window H) }.
Arguments window {H} _.

(** A double quote inside JSX text. *)
Definition quot : string := String "034"%char "".

End Dom.

(** ** components/UniversityIntakeForm (Arabic, right to left) *)

Module Ar.
Import Dom.

(** [YesNoGroup]: "Simple Yes/No radio group". *)
Definition YesNoGroup (name : string) : Node :=
  El div [
    El label [Input radio name (Some "yes") None None None; El span [Txt "نعم"]];
    El label [Input radio name (Some "no") None None None; El span [Txt "لا"]]
  ].

(** [handleSubmit] *)
Definition handleSubmit (currentTarget : list Control) : SubmitEffects :=
  handleSubmit_with "Submitted intake form:" currentTarget.

(** [handlePrintAsPdf]:
    [if (typeof window !== 'undefined') { window.print() }]. *)
Definition handlePrintAsPdf {H} (env : GlobalEnv H) (host : H)
    : JS.Completion (unit * H) :=
  if bool_decide (JS.typeof (window env) ≠ "undefined") then
    w ← JS.resolve "window" (window env);
    mret (tt, print w host)
  else mret (tt, host).

(** The static option lists, written inline in the JSX. *)
Definition goals : list string := [
  "تقليل ضغط الموظفين";
  "رفع جودة الخدمة";
  "توفر 24/7";
  "تقليل وقت الانتظار";
  "توحيد الردود"
].

Definition departments : list string := [
  "القبول";
  "المالية";
  "شؤون الطلبة";
  "الدراسات العليا";
  "العلاقات العامة";
  "خدمة المجتمع";
  "شؤون الموظفين";
  "IT";
  "المكتبة";
  "الامتحانات";
  "المرافق";
  "الأمن والسلامة";
  "العيادة الطبية";
  "مركز الاستشارات";
  "مركز اللغات";
  "مركز التدريب";
  "مركز التوظيف";
  "مركز الابتكار";
  "مركز الجودة";
  "مركز البحث العلمي"
].

Definition languages : list string := [
  "العربية";
  "الإنجليزية";
  "الفرنسية";
  "التركية";
  "الهندية";
  "الأردية"
].

Definition channels : list string := [
  "صوت فقط (IVR ذكي)";
  "صوت + SMS";
  "صوت + WhatsApp";
  "صوت + Email";
  "صوت + بوابة إلكترونية / Chat Widget"
].

Definition scenarios : list string := [
  "رسوم / سداد / متأخرات";
  "تسجيل مواد / حذف وإضافة";
  "قبول / حالة طلب";
  "متابعة معاملة / رقم طلب";
  "طلب شهادة / إفادة";
  "مواعيد (عيادة/استشارات/مقابلات)";
  "امتحانات / جداول / قاعات";
  "شكاوى / تصعيد";
  "دعم فني (L1)"
].

Definition kbItems : list string := [
  "الأسئلة الشائعة FAQ";
  "دليل الطالب";
  "التقويم الأكاديمي";
  "شروط القبول";
  "الرسوم الدراسية";
  "البرامج الأكاديمية";
  "السياسات واللوائح";
  "دليل الموظفين";
  "روابط الأنظمة"
].

Definition section1 : Node :=
  FormSection "1) معلومات عامة" None [
    El div [
      Field "اسم الجامعة" None true [
        Input text "universityName" None None None (Some "مثال: جامعة المستقبل")];
      Field "المدينة / الدولة" None true [
        Input text "cityCountry" None None None (Some "مثال: الرياض، السعودية")];
      Field "اسم الشخص المسؤول" None true [
        Input text "contactName" None None None None];
      Field "المسمى الوظيفي" None true [
        Input text "jobTitle" None None None None];
      Field "رقم التواصل" None true [
        Input tel "phone" None None None (Some "مثال: +966xxxxxxxxx")];
      Field "البريد الإلكتروني" None true [
        Input email "email" None None None None];
      Field "أفضل وقت للتواصل" None false [
        Input text "bestTimeToContact" None None None (Some "مثال: 10 صباحًا – 2 ظهرًا")];
      Field "هل يوجد موعد نهائي لاستلام العرض؟ (تاريخ)" None false [
        Input date "deadline" None None None None]
    ]
  ].

Definition section2 : Node :=
  FormSection "2) الهدف من المشروع" None [
    El div [
      Field "ما الهدف الرئيسي؟" (Some "يمكن اختيار أكثر من هدف إن رغبت.") false [
        El div (map (λ goal,
          El label [
            El span [Txt goal];
            Input checkbox "projectGoals" (Some goal) None None None
          ]) goals)];
      Field "هل المطلوب استبدال كول سنتر بالكامل أم مساعد ذكي بجانب الموظفين؟" None false [
        El div [
          El label [
            Input radio "callcenterScope" (Some "full-replacement") None None None;
            El span [Txt "استبدال الكول سنتر بالكامل"]];
          El label [
            Input radio "callcenterScope" (Some "assistant") None None None;
            El span [Txt "مساعد ذكي بجانب الموظفين"]]
        ]];
      Field "ما نطاق المرحلة الأولى (MVP)؟"
            (Some "مثال: القبول + المالية فقط، أو أقسام محددة.") false [
        Textarea "mvpScope" 3 None]
    ]
  ].

Definition section3 : Node :=
  FormSection "3) الأقسام المطلوبة + حجم المكالمات لكل قسم"
    (Some "يرجى إدخال عدد المكالمات اليومية لكل قسم + نسبة المكالمات المتوقعة خارج أوقات الدوام.") [
    El div (
      map (λ dept,
        El div [
          El p [Txt dept];
          El div [
            El div [
              El label [Txt "مكالمات/يوم"];
              Input number ("dept-" +:+ dept +:+ "-daily") None (Some 0%Z) None None];
            El div [
              El label [Txt "خارج الدوام %"];
              Input number ("dept-" +:+ dept +:+ "-offhours") None
                    (Some 0%Z) (Some 100%Z) None]
          ]
        ]) departments
      ++ [
        El div [
          Field "أقسام أخرى (اذكرها)" None false [
            Textarea "otherDepartments" 2
              (Some "مثال: مركز ريادة الأعمال، مركز الاختبارات الدولية...")]]
      ])
  ].

Definition section4 : Node :=
  FormSection "4) حجم المكالمات الكلي" None [
    El div [
      Field "متوسط عدد المكالمات اليومية (كل الجامعة)" None false [
        Input number "totalDailyCalls" None (Some 0%Z) None None];
      Field "أعلى ذروة للمكالمات (Peak/يوم)" None false [
        Input number "peakDailyCalls" None (Some 0%Z) None None];
      Field "ساعات الذروة" None false [
        Input text "peakHours" None None None (Some "مثال: 10–12 صباحًا، 1–3 ظهرًا")];
      Field "عدد موظفي الكول سنتر الحاليين" None false [
        Input number "currentAgents" None (Some 0%Z) None None];
      Field "متوسط مدة المكالمة الحالية (إن وجد) - دقيقة" None false [
        Input number "avgCallDuration" None (Some 0%Z) None None];
      Field "نسبة المكالمات الفائتة/المعلقة (إن وجد) %" None false [
        Input number "missedCallsPercent" None (Some 0%Z) (Some 100%Z) None]
    ]
  ].

Definition section5 : Node :=
  FormSection "5) اللغات المطلوبة" None [
    El div (
      map (λ lang,
        Field (lang +:+ " (%)") None false [
          Input number ("lang-" +:+ lang) None (Some 0%Z) (Some 100%Z) None
        ]) languages
      ++ [
        Field "لغات أخرى" None false [
          El div [
            Input text "otherLanguageName" None None None (Some "اسم اللغة");
            Input number "otherLanguagePercent" None (Some 0%Z) (Some 100%Z) (Some "%")
          ]]
      ])
  ].

Definition section6 : Node :=
  FormSection "6) نوع القنوات المطلوبة" None [
    El div [
      Field "القنوات المطلوبة" None false [
        El div (
          map (λ channel,
            El label [
              El span [Txt channel];
              Input checkbox "channels" (Some channel) None None None
            ]) channels
          ++ [
            El label [
              El span [Txt "أخرى"];
              Input text "channelsOther" None None None
                    (Some "اذكر القنوات الإضافية إن وجدت")]
          ])];
      Field "هل تريدون رقم موحد واحد أم أرقام متعددة لكل قسم؟" None false [
        Input text "numbersPreference" None None None
              (Some "مثال: رقم موحد واحد + تحويلات داخلية")]
    ]
  ].

Definition section7 : Node :=
  FormSection "7) سيناريوهات المكالمات (Use Cases)"
    (Some "حدد السيناريوهات المطلوبة وهل تحتاج تحقق هوية، واذكر أهم الأسئلة إن أمكن.") [
    El div [
      Field "السيناريوهات المطلوبة + هل تحتاج تحقق هوية؟" None false [
        El div (
          map (λ scenario,
            El div [
              El label [
                El span [Txt scenario];
                Input checkbox "scenarios" (Some scenario) None None None];
              El div [
                El span [Txt "يحتاج تحقق هوية؟"];
                YesNoGroup ("scenario-" +:+ scenario +:+ "-identity")]
            ]) scenarios
          ++ [
            El div [
              El p [Txt "سيناريوهات أخرى"];
              Textarea "otherScenarios" 2 (Some "اذكر أي سيناريوهات إضافية مطلوبة")]
          ])];
      Field "لكل سيناريو: هل الرد معلومة عامة أم يحتاج بيانات طالب/موظف؟ وما أهم 20 سؤال؟"
            None false [
        Textarea "scenariosDetails" 4
          (Some "مثال: سيناريو الرسوم يحتاج رقم جامعي + تفاصيل الرصيد، وأهم الأسئلة هي...")]
    ]
  ].

Definition section8 : Node :=
  FormSection "8) البيانات المتاحة لتغذية النظام (Knowledge Base)" None [
    El div (
      map (λ item, Field item None false [YesNoGroup ("kb-" +:+ item)]) kbItems
      ++ [
        Field "ملفات (PDF/Excel/Word)" None false [
          El div [
            YesNoGroup "kb-files-exist";
            Input number "kb-files-count" None (Some 0%Z) None (Some "كم ملف؟")]];
        Field "أخرى" None false [
          Textarea "kb-other" 2 None];
        Field "لغة المحتوى وتحديثه" None false [
          Input text "kb-languageUpdate" None None None
                (Some "مثال: عربي/إنجليزي ويتم التحديث شهريًا")]
      ])
  ].

Definition section9 : Node :=
  FormSection "9) الأنظمة الموجودة داخل الجامعة (Integrations)" None [
    El div [
      Field "الأنظمة الأكاديمية" None false [
        Input text "systems-academic" None None None
              (Some "مثال: Banner, PeopleSoft, EduWave, نظام داخلي...")];
      Field "أنظمة الكول سنتر / السنترال" None false [
        Input text "systems-callcenter" None None None
              (Some "مثال: Avaya, Cisco, Asterisk, 3CX...")];
      Field "CRM" None false [
        Input text "systems-crm" None None None None];
      Field "أنظمة إضافية (LMS / ERP / بوابة الطالب ...)" None false [
        Textarea "systems-other" 2 None]
    ]
  ].

Definition section10 : Node :=
  FormSection "10) صلاحيات الوصول والقيود الأمنية" None [
    El div [
      Field "API" None false [YesNoGroup "security-api"];
      Field "Webhooks" None false [YesNoGroup "security-webhooks"];
      Field "قاعدة بيانات للقراءة فقط" None false [YesNoGroup "security-readonly-db"];
      Field "SSO (Azure AD / Google / LDAP)" None false [YesNoGroup "security-sso"];
      Field "قيود أمنية / امتثال إضافية" None false [
        Textarea "security-constraints" 3
          (Some "مثال: استضافة داخلية، تشفير، سجلات تدقيق، منع خروج البيانات...")]
    ]
  ].

Definition section11 : Node :=
  FormSection "11) أسئلة تسعير أساسية" None [
    El div [
      Field "هل تريدون الحل Cloud أم On-Premise داخل الجامعة؟" None false [
        Input text "pricing-deployment" None None None None];
      Field "عدد الفروع / الحرم الجامعي إن وجد" None false [
        Input number "pricing-campuses" None (Some 0%Z) None None];
      Field "هل المطلوب 24/7؟" None false [YesNoGroup "pricing-247"];
      Field "نسبة التحويل لموظف (Escalation) المتوقعة %" None false [
        Input number "pricing-escalation-percent" None (Some 0%Z) (Some 100%Z) None];
      Field "هل تريدون تسجيل المكالمات والاحتفاظ بها؟ (اذكر المدة)" None false [
        Input text "pricing-recording" None None None (Some "مثال: نعم، 90 يوم")];
      Field "هل مطلوب لوحة تحكم وتقارير؟ (يومي/أسبوعي/شهري + KPIs)" None false [
        YesNoGroup "pricing-dashboard"];
      Field "هل مطلوب SLA؟ (مثلاً 99.9%)" None false [YesNoGroup "pricing-sla"]
    ]
  ].

Definition section12 : Node :=
  FormSection "12) تجربة المستخدم (Voice & Flow)" None [
    El div [
      Field "هل يوجد سكربت ترحيبي رسمي؟" None false [YesNoGroup "ux-greeting-script"];
      Field "نوع الصوت المطلوب" None false [
        Input text "ux-voice-type" None None None
              (Some "مثال: عربي فصيح / لهجة محلية (خليجية، شامية...)")];
      Field "خيارات IVR تقليدية + ذكاء اصطناعي أم ذكاء فقط؟" None false [
        Input text "ux-ivr-type" None None None None];
      Field "هل تريدون رقم تذكرة تلقائي للشكاوى والمتابعة؟" None false [
        YesNoGroup "ux-ticket-number"]
    ]
  ].

Definition section13 : Node :=
  FormSection "13) ملاحظات إضافية" None [
    Field "أي ملاحظات أو متطلبات إضافية" None false [
      Textarea "additional-notes" 4 None]
  ].

(** The bar under the sections, with the print button
    ([type="button"], [onClick={handlePrintAsPdf}]). *)
Definition actions : Node :=
  El div [
    El div [
      El p [Txt ("عند الإرسال سيقوم الفريق بمراجعة البيانات والتواصل معكم لتحضير العرض الأنسب. يمكنكم أيضًا حفظ النموذج كملف PDF وملؤه لاحقًا من زر "
                 +:+ quot +:+ "تحميل كنموذج PDF" +:+ quot +:+ ".")];
      El div [Button [Txt "تحميل كنموذج PDF"]]
    ]
  ].

(** [UniversityIntakeForm]: the component takes no props and keeps no
    state, so what it renders is this one tree. *)
Definition UniversityIntakeForm : Form :=
  {| dir := rtl;
     children := [
       section1; section2; section3; section4; section5; section6; section7;
       section8; section9; section10; section11; section12; section13;
       actions
     ] |}.

End Ar.

(** ** components/UniversityIntakeFormEn (English, left to right) *)

Module En.
Import Dom.

(** [YesNoGroup]: "Simple Yes/No radio group for English labels". *)
Definition YesNoGroup (name : string) : Node :=
  El div [
    El label [Input radio name (Some "yes") None None None; El span [Txt "Yes"]];
    El label [Input radio name (Some "no") None None None; El span [Txt "No"]]
  ].

(** [handleSubmit] *)
Definition handleSubmit (currentTarget : list Control) : SubmitEffects :=
  handleSubmit_with "Submitted intake form (EN):" currentTarget.

(** [handlePrintAsPdf]:
    [if (typeof window !== 'undefined') { window.print() }]. *)
Definition handlePrintAsPdf {H} (env : GlobalEnv H) (host : H)
    : JS.Completion (unit * H) :=
  if bool_decide (JS.typeof (window env) ≠ "undefined") then
    w ← JS.resolve "window" (window env);
    mret (tt, print w host)
  else mret (tt, host).

(** The static option lists, written inline in the JSX. *)
Definition goals : list string := [
  "Reduce staff workload";
  "Improve service quality";
  "24/7 availability";
  "Reduce waiting time";
  "Standardize responses"
].

Definition departments : list string := [
  "Admissions";
  "Finance";
  "Student Affairs";
  "Graduate Studies";
  "Public Relations";
  "Community Service";
  "HR / Staff Affairs";
  "IT";
  "Library";
  "Examinations";
  "Facilities";
  "Security & Safety";
  "Clinic / Medical Center";
  "Advisory Center";
  "Language Center";
  "Training Center";
  "Career Center";
  "Innovation Center";
  "Quality Center";
  "Research Center"
].

Definition languages : list string := [
  "Arabic";
  "English";
  "French";
  "Turkish";
  "Hindi";
  "Urdu"
].

Definition channels : list string := [
  "Voice only (smart IVR)";
  "Voice + SMS";
  "Voice + WhatsApp";
  "Voice + Email";
  "Voice + Web portal / Chat widget"
].

Definition scenarios : list string := [
  "Fees / Payments / Overdues";
  "Course registration / Add & Drop";
  "Admissions / Application status";
  "Follow-up on a request / ticket";
  "Certificates / Letters";
  "Appointments (clinic / advisory / interviews)";
  "Exams / schedules / halls";
  "Complaints / escalation";
  "Technical support (L1)"
].

Definition kbItems : list string := [
  "FAQ";
  "Student handbook";
  "Academic calendar";
  "Admission requirements";
  "Tuition fees";
  "Academic programs";
  "Policies and regulations";
  "Staff directory";
  "System links"
].

Definition section1 : Node :=
  FormSection "1) General Information" None [
    El div [
      Field "University name" None true [
        Input text "universityName" None None None (Some "e.g. Future University")];
      Field "City / Country" None true [
        Input text "cityCountry" None None None (Some "e.g. Riyadh, Saudi Arabia")];
      Field "Contact person name" None true [
        Input text "contactName" None None None None];
      Field "Job title" None true [
        Input text "jobTitle" None None None None];
      Field "Phone number" None true [
        Input tel "phone" None None None (Some "e.g. +966xxxxxxxxx")];
      Field "Email" None true [
        Input email "email" None None None None];
      Field "Best time to contact" None false [
        Input text "bestTimeToContact" None None None (Some "e.g. 10 AM – 2 PM")];
      Field "Deadline to receive proposal (date)" None false [
        Input date "deadline" None None None None]
    ]
  ].

Definition section2 : Node :=
  FormSection "2) Project Objective" None [
    El div [
      Field "What is the primary objective?"
            (Some "You can select more than one objective.") false [
        El div (map (λ goal,
          El label [
            El span [Txt goal];
            Input checkbox "projectGoals" (Some goal) None None None
          ]) goals)];
      Field "Do you want to fully replace the call center or add an AI assistant beside agents?"
            None false [
        El div [
          El label [
            Input radio "callcenterScope" (Some "full-replacement") None None None;
            El span [Txt "Full call center replacement"]];
          El label [
            Input radio "callcenterScope" (Some "assistant") None None None;
            El span [Txt "AI assistant beside agents"]]
        ]];
      Field "What is the scope of phase one (MVP)?"
            (Some "Example: Admissions + Finance only, or selected departments.") false [
        Textarea "mvpScope" 3 None]
    ]
  ].

Definition section3 : Node :=
  FormSection "3) Required Departments + Call Volume per Department"
    (Some "Please enter the average daily calls per department and the percentage of calls expected outside working hours.") [
    El div (
      map (λ dept,
        El div [
          El p [Txt dept];
          El div [
            El div [
              El label [Txt "Calls / day"];
              Input number ("dept-" +:+ dept +:+ "-daily") None (Some 0%Z) None None];
            El div [
              El label [Txt "After-hours %"];
              Input number ("dept-" +:+ dept +:+ "-offhours") None
                    (Some 0%Z) (Some 100%Z) None]
          ]
        ]) departments
      ++ [
        El div [
          Field "Other departments (please list)" None false [
            Textarea "otherDepartments" 2
              (Some "e.g. Entrepreneurship Center, International Testing Center...")]]
      ])
  ].

Definition section4 : Node :=
  FormSection "4) Overall Call Volume" None [
    El div [
      Field "Average total daily calls (all university)" None false [
        Input number "totalDailyCalls" None (Some 0%Z) None None];
      Field "Peak daily calls (max in a single day)" None false [
        Input number "peakDailyCalls" None (Some 0%Z) None None];
      Field "Peak hours" None false [
        Input text "peakHours" None None None (Some "e.g. 10–12 AM, 1–3 PM")];
      Field "Current number of call center agents" None false [
        Input number "currentAgents" None (Some 0%Z) None None];
      Field "Average handling time per call (if known) - minutes" None false [
        Input number "avgCallDuration" None (Some 0%Z) None None];
      Field "Missed / abandoned calls (if known) %" None false [
        Input number "missedCallsPercent" None (Some 0%Z) (Some 100%Z) None]
    ]
  ].

Definition section5 : Node :=
  FormSection "5) Required Languages" None [
    El div (
      map (λ lang,
        Field (lang +:+ " (%)") None false [
          Input number ("lang-" +:+ lang) None (Some 0%Z) (Some 100%Z) None
        ]) languages
      ++ [
        Field "Other languages" None false [
          El div [
            Input text "otherLanguageName" None None None (Some "Language name");
            Input number "otherLanguagePercent" None (Some 0%Z) (Some 100%Z) (Some "%")
          ]]
      ])
  ].

Definition section6 : Node :=
  FormSection "6) Required Channels" None [
    El div [
      Field "Preferred channels" None false [
        El div (
          map (λ channel,
            El label [
              El span [Txt channel];
              Input checkbox "channels" (Some channel) None None None
            ]) channels
          ++ [
            El label [
              El span [Txt "Other"];
              Input text "channelsOther" None None None
                    (Some "List any additional channels")]
          ])];
      Field "Do you prefer a single unified number or multiple numbers per department?"
            None false [
        Input text "numbersPreference" None None None
              (Some "e.g. one unified number with internal extensions")]
    ]
  ].

Definition section7 : Node :=
  FormSection "7) Call Scenarios (Use Cases)"
    (Some "Specify the scenarios you need, whether identity verification is required, and list key questions when possible.") [
    El div [
      Field "Required scenarios + whether identity verification is needed" None false [
        El div (
          map (λ scenario,
            El div [
              El label [
                El span [Txt scenario];
                Input checkbox "scenarios" (Some scenario) None None None];
              El div [
                El span [Txt "Requires identity verification?"];
                YesNoGroup ("scenario-" +:+ scenario +:+ "-identity")]
            ]) scenarios
          ++ [
            El div [
              El p [Txt "Other scenarios"];
              Textarea "otherScenarios" 2
                (Some "List any additional scenarios you require")]
          ])];
      Field "For each scenario: is the answer general information or does it require student/staff data? What are the top 20 questions?"
            None false [
        Textarea "scenariosDetails" 4
          (Some "Example: Fees scenario requires student ID + balance details. Key questions are...")]
    ]
  ].

Definition section8 : Node :=
  FormSection "8) Available Data for Knowledge Base" None [
    El div (
      map (λ item, Field item None false [YesNoGroup ("kb-" +:+ item)]) kbItems
      ++ [
        Field "Files (PDF/Excel/Word)" None false [
          El div [
            YesNoGroup "kb-files-exist";
            Input number "kb-files-count" None (Some 0%Z) None (Some "How many?")]];
        Field "Other sources" None false [
          Textarea "kb-other" 2 None];
        Field "Content language and update frequency" None false [
          Input text "kb-languageUpdate" None None None
                (Some "e.g. Arabic/English and updated monthly")]
      ])
  ].

Definition section9 : Node :=
  FormSection "9) Existing University Systems (Integrations)" None [
    El div [
      Field "Academic systems" None false [
        Input text "systems-academic" None None None
              (Some "e.g. Banner, PeopleSoft, EduWave, in-house system...")];
      Field "Call center / PBX systems" None false [
        Input text "systems-callcenter" None None None
              (Some "e.g. Avaya, Cisco, Asterisk, 3CX...")];
      Field "CRM" None false [
        Input text "systems-crm" None None None None];
      Field "Additional systems (LMS / ERP / Student portal...)" None false [
        Textarea "systems-other" 2 None]
    ]
  ].

Definition section10 : Node :=
  FormSection "10) Access and Security Constraints" None [
    El div [
      Field "API access" None false [YesNoGroup "security-api"];
      Field "Webhooks" None false [YesNoGroup "security-webhooks"];
      Field "Read-only database" None false [YesNoGroup "security-readonly-db"];
      Field "SSO (Azure AD / Google / LDAP)" None false [YesNoGroup "security-sso"];
      Field "Additional security / compliance requirements" None false [
        Textarea "security-constraints" 3
          (Some "e.g. on-prem hosting, encryption, audit logs, data residency...")]
    ]
  ].

Definition section11 : Node :=
  FormSection "11) Basic Pricing Questions" None [
    El div [
      Field "Preferred deployment: Cloud or on-premise (inside university)?" None false [
        Input text "pricing-deployment" None None None None];
      Field "Number of campuses / branches (if any)" None false [
        Input number "pricing-campuses" None (Some 0%Z) None None];
      Field "Is 24/7 operation required?" None false [YesNoGroup "pricing-247"];
      Field "Expected escalation rate to human agents %" None false [
        Input number "pricing-escalation-percent" None (Some 0%Z) (Some 100%Z) None];
      Field "Do you require call recording? For how long?" None false [
        Input text "pricing-recording" None None None (Some "e.g. Yes, 90 days")];
      Field "Do you need dashboard and reports? (daily/weekly/monthly + KPIs)" None false [
        YesNoGroup "pricing-dashboard"];
      Field "Do you require an SLA? (e.g. 99.9%)" None false [YesNoGroup "pricing-sla"]
    ]
  ].

Definition section12 : Node :=
  FormSection "12) User Experience (Voice & Flow)" None [
    El div [
      Field "Do you already have an official greeting script?" None false [
        YesNoGroup "ux-greeting-script"];
      Field "Preferred voice type" None false [
        Input text "ux-voice-type" None None None
              (Some "e.g. Modern Standard Arabic / local dialect (Gulf, Levant, ...)")];
      Field "Traditional IVR options + AI, or AI only?" None false [
        Input text "ux-ivr-type" None None None None];
      Field "Do you want automatic ticket numbers for complaints and follow-up?" None false [
        YesNoGroup "ux-ticket-number"]
    ]
  ].

Definition section13 : Node :=
  FormSection "13) Additional Notes" None [
    Field "Any additional notes or requirements" None false [
      Textarea "additional-notes" 4 None]
  ].

(** The bar under the sections, with the print button
    ([type="button"], [onClick={handlePrintAsPdf}]). *)
Definition actions : Node :=
  El div [
    El div [
      El p [Txt ("Once you complete this form, our team will review the information and contact you with a tailored technical and commercial proposal. You can also save the form as a PDF and fill it later using the "
                 +:+ quot +:+ "Download as PDF form" +:+ quot +:+ " button.")];
      El div [Button [Txt "Download as PDF form"]]
    ]
  ].

(** [UniversityIntakeFormEn]: no props, no state; it renders this tree. *)
Definition UniversityIntakeFormEn : Form :=
  {| dir := ltr;
     children := [
       section1; section2; section3; section4; section5; section6; section7;
       section8; section9; section10; section11; section12; section13;
       actions
     ] |}.

End En.

(** ** pages/Home *)

Module Home.
Import JS LanguageContext Dom.

(** The two form components [Home] chooses between. *)
Inductive Component := UniversityIntakeForm | UniversityIntakeFormEn.

#[global] Instance Component_eq_dec : EqDecision Component.
Proof. solve_decision. Defined.

Definition component_form (c : Component) : Form :=
  match c with
  | UniversityIntakeForm => Ar.UniversityIntakeForm
  | UniversityIntakeFormEn => En.UniversityIntakeFormEn
  end.

Definition component_handleSubmit (c : Component)
    : list Control → SubmitEffects :=
  match c with
  | UniversityIntakeForm => Ar.handleSubmit
  | UniversityIntakeFormEn => En.handleSubmit
  end.

Definition component_handlePrintAsPdf {H} (c : Component)
    : GlobalEnv H → H → Completion (unit * H) :=
  match c with
  | UniversityIntakeForm => Ar.handlePrintAsPdf
  | UniversityIntakeFormEn => En.handlePrintAsPdf
  end.

(** What [Home] returns.  [VButton l active _] is a button of the
    language switcher: its [onClick] is [() => setLanguage(l)] and
    [active] says whether it is drawn highlighted; [VDir] is the heading
    block, whose class is ['rtl'] or ['ltr']; [VMount c] is the element
    [<c />]. *)
Inductive View :=
| VEl (children : list View)
| VTxt (s : string)
| VStyle
| VImg (src alt : string)
| VButton (onClick : AppLanguage) (active : bool) (children : list View)
| VDir (d : Dir) (children : list View)
| VMount (c : Component).

(** [Home]: reads the language through [useLanguage] and renders the
    switcher, the heading and one of the two forms. *)
Definition Home (ctx : LanguageContext) : Completion View :=
  v ← useLanguage ctx;
  let isArabic := bool_decide (language v = ar) in
  mret (VEl [
    VStyle;
    VEl [
      VEl [VEl [
        VButton ar isArabic [VTxt "عربي"];
        VButton en (negb isArabic) [VTxt "English"]]];
      VDir (if isArabic then rtl else ltr) [
        VEl [VImg "https://pub-cdn.sider.ai/u/U024HZ02YAN/web-coder/6978eb1c749110c6a258f1ff/resource/25925e48-22ad-4972-91d6-f1b01b109c99.png"
                  "OverZaki logo"];
        if isArabic then
          VEl [
            VTxt "نموذج جمع معلومات مشروع المساعد الذكي الجامعي";
            VTxt "يرجى تعبئة الحقول التالية بدقة قدر الإمكان حتى نتمكن من إعداد عرض فني ومالي مناسب لاحتياجات الجامعة."]
        else
          VEl [
            VTxt "University Smart Assistant Project Intake Form";
            VTxt "Please fill in the following fields as accurately as possible so we can prepare a tailored technical and commercial proposal for your university."]
      ];
      if isArabic then VMount UniversityIntakeForm
      else VMount UniversityIntakeFormEn
    ]
  ]).

(** The form components a view mounts, in tree order. *)
Fixpoint mounts (v : View) : list Component :=
  match v with
  | VEl cs => flat_map mounts cs
  | VButton _ _ cs => flat_map mounts cs
  | VDir _ cs => flat_map mounts cs
  | VMount c => [c]
  | VTxt _ | VStyle | VImg _ _ => []
  end.

End Home.

(** ** App: the provider around the single route *)

Module App.
Import JS LanguageContext Dom Home.

(** [App]: [<LanguageProvider>] around the router, whose only route
    ["/"] is [Home]. *)
Definition App (cell : AppLanguage) : Completion View :=
  Home (LanguageProvider cell).

(** The running application: the provider's state cell, the DOM state of
    the mounted form, what has been written to the console, the host's
    state, and the errors that escaped a handler or a render. *)
Record AppState (H : Type) := {
  cell : AppLanguage;
  form_state : list Control;
  console : list (string * gmap string string);
  host : H;
  uncaught : list string
}.
Arguments cell {H} _.
Arguments form_state {H} _.
Arguments console {H} _.
Arguments host {H} _.
Arguments uncaught {H} _.

(** The form components on screen in a state. *)
Definition mounted {H} (s : AppState H) : list Component :=
  match App (cell s) with
  | Normal v => mounts v
  | Throw _ => []
  end.

Definition fresh_dom (cs : list Component) : list Control :=
  flat_map (λ c, mount_form (component_form c)) cs.

Definition init {H} (h : H) : AppState H :=
  {| cell := useState_initial;
     form_state := match App useState_initial with
                   | Normal v => fresh_dom (mounts v)
                   | Throw _ => []
                   end;
     console := [];
     host := h;
     uncaught := [] |}.

Inductive Event :=
| Click (l : AppLanguage)
| Edit (a : UserAction)
| Submit
| PrintAsPdf.

(** One event.  A click on the switcher runs [setLanguage l] and React
    renders again: a form component that stays in place keeps its DOM, a
    component that is replaced by another is unmounted and the new one
    mounted afresh.  The other events run the handlers of the mounted
    form. *)
Definition step {H} (env : GlobalEnv H) (s : AppState H) (e : Event)
    : AppState H :=
  match e with
  | Click l =>
      match useLanguage (LanguageProvider (cell s)) with
      | Normal v =>
          let cell' := setLanguage v l (cell s) in
          match App cell' with
          | Normal view =>
              {| cell := cell';
                 form_state :=
                   if bool_decide (mounts view = mounted s) then form_state s
                   else fresh_dom (mounts view);
                 console := console s; host := host s;
                 uncaught := uncaught s |}
          | Throw m =>
              {| cell := cell'; form_state := []; console := console s;
                 host := host s; uncaught := uncaught s ++ [m] |}
          end
      | Throw m =>
          {| cell := cell s; form_state := form_state s;
             console := console s; host := host s;
             uncaught := uncaught s ++ [m] |}
      end
  | Edit a =>
      {| cell := cell s; form_state := user_action (form_state s) a;
         console := console s; host := host s; uncaught := uncaught s |}
  | Submit =>
      {| cell := cell s; form_state := form_state s;
         console := console s
           ++ flat_map (λ c, logged (component_handleSubmit c (form_state s)))
                       (mounted s);
         host := host s; uncaught := uncaught s |}
  | PrintAsPdf =>
      match mounted s with
      | c :: _ =>
          match component_handlePrintAsPdf c env (host s) with
          | Normal (_, h) =>
              {| cell := cell s; form_state := form_state s;
                 console := console s; host := h; uncaught := uncaught s |}
          | Throw m =>
              {| cell := cell s; form_state := form_state s;
                 console := console s; host := host s;
                 uncaught := uncaught s ++ [m] |}
          end
      | [] => s
      end
  end.

Definition run {H} (env : GlobalEnv H) (s : AppState H) (es : list Event)
    : AppState H :=
  foldl (step env) s es.

(** The arguments of the switcher clicks among the events, in order. *)
Definition clicks (es : list Event) : list AppLanguage :=
  flat_map (λ e, match e with Click l => [l] | _ => [] end) es.

End App.

(** ** Observations on forms and submissions *)

Module Obs.
Import JS LanguageContext Dom Home App.

Definition names (cs : list Control) : list string := ctl_name <$> cs.

Definition textual_names (cs : list Control) : list string :=
  names (filter (λ c, is_textual (ctl_kind c)) cs).

Definition checkable_names (cs : list Control) : list string :=
  names (filter (λ c, is_checkable (ctl_kind c)) cs).

(** The kind and name of every control: what the form consists of,
    whatever has been typed or ticked. *)
Definition signature (cs : list Control) : list (ControlKind * string) :=
  (λ c, (ctl_kind c, ctl_name c)) <$> cs.

(** A control that [FormData] takes an entry from. *)
Definition submitted (c : Control) : Prop :=
  ctl_name c ≠ "" ∧ (is_checkable (ctl_kind c) → ctl_checked c).

#[global] Instance submitted_dec c : Decision (submitted c).
Proof. unfold submitted. apply _. Defined.

(** The record built from a DOM state. *)
Definition record (cs : list Control) : gmap string string :=
  collect (FormData cs).

(** The record [handleSubmit] of a variant writes to the console. *)
Definition submission (v : Component) (cs : list Control)
    : gmap string string :=
  default ∅ (snd <$> head (logged (component_handleSubmit v cs))).

(** The message each variant logs the record with. *)
Definition console_message (v : Component) : string :=
  match v with
  | UniversityIntakeForm => "Submitted intake form:"
  | UniversityIntakeFormEn => "Submitted intake form (EN):"
  end.

(** Filling text fields: typing a string into each named field. *)
Definition fill (cs : list Control) (fills : list (string * string))
    : list Control :=
  user_actions cs ((λ f, TypeText f.1 f.2) <$> fills).

(** The last string typed into the field [n], or [d] when none was. *)
Definition typed (fills : list (string * string)) (n d : string) : string :=
  foldl (λ acc f, if bool_decide (f.1 = n) then f.2 else acc) d fills.

(** A control after the fills: a textual control holds what was typed
    last under its name, the others are untouched. *)
Definition typed_control (fills : list (string * string)) (c : Control)
    : Control :=
  if is_textual (ctl_kind c) then
    {| ctl_kind := ctl_kind c; ctl_name := ctl_name c;
       ctl_value := typed fills (ctl_name c) (ctl_value c);
       ctl_checked := ctl_checked c |}
  else c.

(** A control as a fresh mount of the two forms leaves it: named,
    unchecked, and empty when it is textual. *)
Definition pristine (c : Control) : Prop :=
  ctl_checked c = false ∧ ctl_name c ≠ ""
  ∧ (is_textual (ctl_kind c) → ctl_value c = "").

#[global] Instance pristine_dec c : Decision (pristine c).
Proof. unfold pristine. apply _. Defined.

(** A radio button of the live DOM. *)
Definition radio_button (name value : string) (checked : bool) : Control :=
  {| ctl_kind := KInput radio; ctl_name := name; ctl_value := value;
     ctl_checked := checked |}.

(** The controls of a given name, in tree order. *)
Definition named (name : string) (cs : list Control) : list Control :=
  filter (λ c, ctl_name c = name) cs.


(** The names a form gives to its Yes/No groups: those of its radio
    buttons of value ["yes"]. *)
Definition yesno_names (cs : list Control) : list string :=
  ctl_name <$> filter (λ c, ctl_kind c = KInput radio ∧ ctl_value c = "yes") cs.


(** Section titles and field labels, in the order rendered. *)
Fixpoint titles_labels (n : Node) : list string :=
  match n with
  | FormSection title _ cs => title :: flat_map titles_labels cs
  | Field lbl _ _ cs => lbl :: flat_map titles_labels cs
  | El _ cs => flat_map titles_labels cs
  | Button cs => flat_map titles_labels cs
  | Txt _ | Input _ _ _ _ _ _ | Textarea _ _ _ => []
  end.

Definition form_titles_labels (f : Form) : list string :=
  flat_map titles_labels (children f).

(** What a state of the application shows of them. *)
Definition rendered_titles_labels {H} (s : AppState H) : list string :=
  flat_map (λ c, form_titles_labels (component_form c)) (mounted s).

(** The structure of a tree once every piece of text (titles, labels,
    hints, placeholders, option strings, field names) is erased: tags,
    control kinds, numeric bounds and rows, and which optional parts are
    present. *)
Inductive Shape :=
| SEl (tag : Tag) (children : list Shape)
| STxt
| SInput (type : InputType) (has_value : bool) (min max : option Z)
         (has_placeholder : bool)
| STextarea (rows : nat) (has_placeholder : bool)
| SButton (children : list Shape)
| SField (has_hint required : bool) (children : list Shape)
| SFormSection (has_description : bool) (children : list Shape).

Fixpoint skeleton (n : Node) : Shape :=
  match n with
  | El tag cs => SEl tag (map skeleton cs)
  | Txt _ => STxt
  | Input type _ value min max placeholder =>
      SInput type (bool_decide (is_Some value)) min max
             (bool_decide (is_Some placeholder))
  | Textarea _ rows placeholder =>
      STextarea rows (bool_decide (is_Some placeholder))
  | Button cs => SButton (map skeleton cs)
  | Field _ hint required cs =>
      SField (bool_decide (is_Some hint)) required (map skeleton cs)
  | FormSection _ description cs =>
      SFormSection (bool_decide (is_Some description)) (map skeleton cs)
  end.

Definition is_FormSection (n : Node) : bool :=
  match n with FormSection _ _ _ => true | _ => false end.

(** The [FormSection]s of a form, in order. *)
Definition sections (f : Form) : list Node :=
  List.filter is_FormSection (children f).

(** The kinds of the controls of each section. *)
Definition section_kinds (f : Form) : list (list ControlKind) :=
  (λ s, ctl_kind <$> mount s) <$> sections f.

(** The option lists of a variant:
    goals, departments, languages, channels, scenarios, knowledge base. *)
Definition option_lists (c : Component) : list (list string) :=
  match c with
  | UniversityIntakeForm =>
      [Ar.goals; Ar.departments; Ar.languages; Ar.channels; Ar.scenarios;
       Ar.kbItems]
  | UniversityIntakeFormEn =>
      [En.goals; En.departments; En.languages; En.channels; En.scenarios;
       En.kbItems]
  end.

Definition YesNoGroup_of (c : Component) : string → Node :=
  match c with
  | UniversityIntakeForm => Ar.YesNoGroup
  | UniversityIntakeFormEn => En.YesNoGroup
  end.

(** The field names the JSX builds from option text with a template
    literal: [dept-${dept}-daily], [dept-${dept}-offhours],
    [lang-${lang}], [scenario-${scenario}-identity], [kb-${item}]. *)
Definition template_names (departments languages scenarios kbItems : list string)
    : list string :=
  flat_map (λ dept, ["dept-" +:+ dept +:+ "-daily";
                     "dept-" +:+ dept +:+ "-offhours"]) departments
  ++ map (λ lang, "lang-" +:+ lang) languages
  ++ map (λ scenario, "scenario-" +:+ scenario +:+ "-identity") scenarios
  ++ map (λ item, "kb-" +:+ item) kbItems.

Definition option_derived_names (c : Component) : list string :=
  match c with
  | UniversityIntakeForm =>
      template_names Ar.departments Ar.languages Ar.scenarios Ar.kbItems
  | UniversityIntakeFormEn =>
      template_names En.departments En.languages En.scenarios En.kbItems
  end.

(** The field names written as string literals in the JSX: those of the
    form that are not built from option text. *)
Definition hard_coded_names (c : Component) : list string :=
  filter (λ n, n ∉ option_derived_names c)
         (names (mount_form (component_form c))).

(** The form component [Home] mounts for a language:
    [isArabic ? <UniversityIntakeForm /> : <UniversityIntakeFormEn />]. *)
Definition variant_of (l : AppLanguage) : Component :=
  match l with
  | ar => UniversityIntakeForm
  | en => UniversityIntakeFormEn
  end.

(** The keys of a record that are option-derived names of a variant. *)
Definition derived_keys (c : Component) (data : gmap string string)
    : gset string :=
  filter (λ k, k ∈ option_derived_names c) (dom data).

(** The operations of the system, and what running one completes with. *)
Inductive Operation (H : Type) :=
| OpUseLanguage (ctx : LanguageContext)
| OpHome (ctx : LanguageContext)
| OpSetLanguage (v : LanguageContextValue) (l cell : AppLanguage)
| OpSubmit (c : Component) (currentTarget : list Control)
| OpPrintAsPdf (c : Component) (env : GlobalEnv H) (host : H).
Arguments OpUseLanguage {H} ctx.
Arguments OpHome {H} ctx.
Arguments OpSetLanguage {H} v l cell.
Arguments OpSubmit {H} c currentTarget.
Arguments OpPrintAsPdf {H} c env host.

Definition perform {H} (op : Operation H) : Completion unit :=
  match op with
  | OpUseLanguage ctx => _ ← useLanguage ctx; mret tt
  | OpHome ctx => _ ← Home ctx; mret tt
  | OpSetLanguage v l cell => let _ := setLanguage v l cell in mret tt
  | OpSubmit c cs => let _ := component_handleSubmit c cs in mret tt
  | OpPrintAsPdf c env host => _ ← component_handlePrintAsPdf c env host; mret tt
  end.

(** The context an operation reads the language from, if it does. *)
Definition context_read {H} (op : Operation H) : option LanguageContext :=
  match op with
  | OpUseLanguage ctx | OpHome ctx => Some ctx
  | _ => None
  end.

End Obs.

(** ** The layout wrappers, rendered *)

Module Layout.
Import Dom.

(** The host elements the components render to. *)
Inductive HtmlTag :=
| h_section | h_header | h_h2 | h_div | h_label | h_span | h_p | h_button.

Inductive Html :=
| HEl (tag : HtmlTag) (children : list Html)
| HTxt (s : string)
| HInput (type : InputType) (name : string) (value : option string)
         (min max : option Z) (placeholder : option string)
| HTextarea (name : string) (rows : nat) (placeholder : option string).

(** [x ? <p>{x}</p> : null] for an optional string prop: [undefined]
    and the empty string are falsy. *)
Definition optional_paragraph (x : option string) : list Html :=
  match x with
  | Some s => if bool_decide (s = "") then [] else [HEl h_p [HTxt s]]
  | None => []
  end.

(** [FormSection]: a section whose header holds the title in an [h2]
    and, when there is one, the description; the children follow in a
    [div]. *)
Definition FormSection (title : string) (description : option string)
    (children : list Html) : Html :=
  HEl h_section [
    HEl h_div [
      HEl h_header (HEl h_h2 [HTxt title] :: optional_paragraph description);
      HEl h_div children
    ]
  ].

(** [Field]: the label, with the marker [" *"] when [required], the
    hint when there is one, then the children. *)
Definition Field (label : string) (hint : option string) (required : bool)
    (children : list Html) : Html :=
  HEl h_div (
    HEl h_label [
      HEl h_span (HTxt label
                  :: if required then [HEl h_span [HTxt " *"]] else [])]
    :: optional_paragraph hint ++ children).

Definition host_tag (t : Tag) : HtmlTag :=
  match t with
  | div => h_div
  | label => h_label
  | span => h_span
  | p => h_p
  end.

(** Rendering the JSX tree: the wrappers are replaced by what they
    return, around their rendered children. *)
Fixpoint render (n : Node) : Html :=
  match n with
  | El t cs => HEl (host_tag t) (map render cs)
  | Txt s => HTxt s
  | Input type name value min max placeholder =>
      HInput type name value min max placeholder
  | Textarea name rows placeholder => HTextarea name rows placeholder
  | Button cs => HEl h_button (map render cs)
  | Dom.Field lbl hint required cs => Field lbl hint required (map render cs)
  | Dom.FormSection title description cs =>
      FormSection title description (map render cs)
  end.

(** The form controls of a rendered tree, in tree order; as in [mount],
    what a [button] holds is its caption, not controls. *)
Fixpoint controls (h : Html) : list Control :=
  match h with
  | HEl h_button _ => []
  | HEl _ cs => flat_map controls cs
  | HTxt _ => []
  | HInput type name value _ _ _ => [mount_input type name value]
  | HTextarea name _ _ =>
      [{| ctl_kind := KTextarea; ctl_name := name;
          ctl_value := ""; ctl_checked := false |}]
  end.

(** The text nodes of a tree, in order. *)
Fixpoint texts (h : Html) : list string :=
  match h with
  | HEl _ cs => flat_map texts cs
  | HTxt s => [s]
  | HInput _ _ _ _ _ _ | HTextarea _ _ _ => []
  end.

(** The text of every [h2] heading, in order. *)
Fixpoint headings (h : Html) : list (list string) :=
  match h with
  | HEl h_h2 cs => [flat_map texts cs]
  | HEl _ cs => flat_map headings cs
  | HTxt _ | HInput _ _ _ _ _ _ | HTextarea _ _ _ => []
  end.

(** The titles of the [FormSection]s of a JSX tree, in order. *)
Fixpoint section_titles (n : Node) : list string :=
  match n with
  | Dom.FormSection title _ cs => title :: flat_map section_titles cs
  | Dom.Field _ _ _ cs => flat_map section_titles cs
  | El _ cs => flat_map section_titles cs
  | Button cs => flat_map section_titles cs
  | Txt _ | Input _ _ _ _ _ _ | Textarea _ _ _ => []
  end.

End Layout.

(** ** Further observations *)

Module Obs2.
Import JS LanguageContext Dom Home App Obs.

(** What an action cannot change of a control: its kind, its name and,
    for a checkbox or radio button, its [value] attribute. *)
Definition attrs (c : Control) : ControlKind * string * string :=
  (ctl_kind c, ctl_name c,
   if is_checkable (ctl_kind c) then ctl_value c else "").

(** The buttons of the language switcher in a view: the language each
    one sets and whether it is drawn highlighted. *)
Fixpoint switcher (v : View) : list (AppLanguage * bool) :=
  match v with
  | VButton l active _ => [(l, active)]
  | VEl cs => flat_map switcher cs
  | VDir _ cs => flat_map switcher cs
  | VTxt _ | VStyle | VImg _ _ | VMount _ => []
  end.

(** The direction classes of the heading block. *)
Fixpoint directions (v : View) : list Dir :=
  match v with
  | VDir d cs => d :: flat_map directions cs
  | VEl cs => flat_map directions cs
  | VButton _ _ cs => flat_map directions cs
  | VTxt _ | VStyle | VImg _ _ | VMount _ => []
  end.

(** How many of the events are submissions, and how many are clicks on
    the print button. *)
Definition submits (es : list Event) : nat :=
  length (flat_map (λ e, match e with Submit => [e] | _ => [] end) es).

Definition prints (es : list Event) : nat :=
  length (flat_map (λ e, match e with PrintAsPdf => [e] | _ => [] end) es).

(** One call of the host's print facility, when there is a [window]. *)
Definition print_once {H} (env : GlobalEnv H) (h : H) : H :=
  match window env with
  | Some w => print w h
  | None => h
  end.

End Obs2.

Import JS LanguageContext Dom Home App Obs Obs2.

(** ** The record built by [handleSubmit] *)

Section Collect.
Implicit Types (l : list (string * string)) (m : gmap string string).

Lemma collect_snoc l k v : collect (l ++ [(k, v)]) = <[k:=v]> (collect l).
Proof. unfold collect. by rewrite foldl_app. Qed.

Lemma collect_dom l : dom (collect l) = list_to_set l.*1.
Proof.
  induction l as [|[k v] l IH] using rev_ind; [set_solver|].
  rewrite collect_snoc, dom_insert_L, IH, fmap_app, list_to_set_app_L.
  simpl. rewrite (right_id_L ∅ (∪)). apply (comm_L (∪)).
Qed.

Lemma collect_lookup_None l k : k ∉ l.*1 → collect l !! k = None.
Proof.
  intros Hk. apply not_elem_of_dom. rewrite collect_dom. set_solver.
Qed.

End Collect.

Section Record.
Implicit Types (c : Control) (cs : list Control).

Lemma FormData_snoc cs c : FormData (cs ++ [c]) = FormData cs ++ entry c.
Proof. unfold FormData. rewrite flat_map_app. simpl. by rewrite app_nil_r. Qed.

Lemma entry_submitted c : submitted c → entry c = [(ctl_name c, ctl_value c)].
Proof.
  unfold submitted. intros [Hn Hc]. unfold entry.
  rewrite bool_decide_eq_false_2 by done.
  destruct (is_checkable (ctl_kind c)); [|done].
  destruct (ctl_checked c); [done|]. by destruct Hc.
Qed.

Lemma entry_not_submitted c : ¬ submitted c → entry c = [].
Proof.
  unfold submitted. intros Hs. unfold entry. case_bool_decide; [done|].
  destruct (is_checkable (ctl_kind c)) eqn:Hk; simpl.
  - destruct (ctl_checked c) eqn:Hc; [|done].
    by destruct Hs.
  - by destruct Hs.
Qed.

(** The record, one control at a time: a submitted control overwrites
    what the record held under its name. *)
Lemma record_snoc cs c :
  record (cs ++ [c]) =
    if decide (submitted c) then <[ctl_name c := ctl_value c]> (record cs)
    else record cs.
Proof.
  unfold record. rewrite FormData_snoc. case_decide as Hs.
  - rewrite entry_submitted by done. apply collect_snoc.
  - rewrite entry_not_submitted by done. by rewrite app_nil_r.
Qed.


(** When every submitted control of a name holds the same value, that is
    the value of the record. *)
Lemma record_lookup_agree cs c :
  c ∈ cs → submitted c →
  (∀ c', c' ∈ cs → submitted c' → ctl_name c' = ctl_name c →
         ctl_value c' = ctl_value c) →
  record cs !! ctl_name c = Some (ctl_value c).
Proof.
  induction cs as [|c0 cs IH] using rev_ind; intros Hin Hs Hag; [set_solver|].
  rewrite record_snoc. case_decide as Hs0.
  - destruct (decide (ctl_name c0 = ctl_name c)) as [Hn|Hn].
    + rewrite Hn, lookup_insert_eq. f_equal. apply Hag; [set_solver|done..].
    + rewrite lookup_insert_ne by done.
      apply IH; [|done|intros; apply Hag; set_solver].
      apply elem_of_app in Hin as [?|Hin]; [done|].
      apply list_elem_of_singleton in Hin. by subst.
  - apply IH; [|done|intros; apply Hag; set_solver].
    apply elem_of_app in Hin as [?|Hin]; [done|].
    apply list_elem_of_singleton in Hin. by subst.
Qed.

Lemma record_dom cs :
  dom (record cs) = list_to_set (names (filter submitted cs)).
Proof.
  induction cs as [|c cs IH] using rev_ind; [set_solver|].
  rewrite record_snoc, filter_app. unfold names in *. rewrite fmap_app.
  rewrite list_to_set_app_L, <- IH. case_decide as Hs.
  - rewrite dom_insert_L, filter_cons_True by done. set_solver.
  - rewrite filter_cons_False by done. set_solver.
Qed.

Lemma submission_record v cs : submission v cs = record cs.
Proof. by destruct v. Qed.

(** [handleSubmit] always completes: it prevents the default navigation
    and logs the record under the message of its variant. *)
Lemma handleSubmit_logs v cs :
  component_handleSubmit v cs
  = {| defaultPrevented := true;
       logged := [(console_message v, submission v cs)] |}.
Proof. by destruct v. Qed.

End Record.

(** ** Filling text fields *)

Section Fill.
Implicit Types (c : Control) (cs : list Control).
Implicit Types (fills : list (string * string)).



Lemma fill_typed_control fills cs : fill cs fills = typed_control fills <$> cs.
Proof.
  revert cs. induction fills as [|f fills IH]; intros cs.
  - change (fill cs []) with cs.
    transitivity (id <$> cs); [by rewrite list_fmap_id|].
    apply list_fmap_ext. intros _ c _. unfold typed_control.
    destruct c as [k n x b]. simpl. by destruct (is_textual k).
  - change (fill cs (f :: fills))
      with (fill (act_on (TypeText f.1 f.2) <$> cs) fills).
    rewrite IH, <- list_fmap_compose. apply list_fmap_ext.
    intros _ c _. unfold typed_control, act_on. simpl.
    destruct (is_textual (ctl_kind c)) eqn:Hk; simpl; [|by rewrite Hk].
    change (typed (f :: fills) (ctl_name c) (ctl_value c))
      with (typed fills (ctl_name c)
              (if bool_decide (f.1 = ctl_name c) then f.2 else ctl_value c)).
    case_bool_decide as Hn; simpl; rewrite Hk; f_equal.
    + by rewrite bool_decide_eq_true_2.
    + by rewrite bool_decide_eq_false_2 by congruence.
Qed.

Lemma typed_control_name fills c : ctl_name (typed_control fills c) = ctl_name c.
Proof. unfold typed_control. by destruct (is_textual _). Qed.

Lemma typed_control_kind fills c : ctl_kind (typed_control fills c) = ctl_kind c.
Proof. unfold typed_control. by destruct (is_textual _). Qed.

Lemma typed_control_checked fills c :
  ctl_checked (typed_control fills c) = ctl_checked c.
Proof. unfold typed_control. by destruct (is_textual _). Qed.

(** On a pristine form, what is submitted after the fills are the
    textual controls. *)
Lemma submitted_typed_control fills c :
  pristine c → submitted (typed_control fills c) ↔ is_textual (ctl_kind c).
Proof.
  intros (Hc & Hn & _). unfold submitted.
  rewrite typed_control_name, typed_control_kind, typed_control_checked, Hc.
  unfold is_textual. destruct (is_checkable _); simpl; naive_solver.
Qed.




Lemma filled_record_dom fills cs :
  Forall pristine cs →
  dom (record (fill cs fills)) = list_to_set (textual_names cs).
Proof.
  intros Hp. rewrite Forall_forall in Hp.
  rewrite record_dom, fill_typed_control. apply set_eq. intros k.
  rewrite !elem_of_list_to_set. unfold textual_names, names.
  rewrite !list_elem_of_fmap. split.
  - intros (c' & -> & [Hs (c & -> & Hin)%list_elem_of_fmap]%list_elem_of_filter).
    apply submitted_typed_control in Hs; [|by apply Hp].
    exists c. rewrite typed_control_name. split; [done|].
    by apply list_elem_of_filter.
  - intros (c & -> & [Hk Hin]%list_elem_of_filter).
    exists (typed_control fills c). rewrite typed_control_name. split; [done|].
    apply list_elem_of_filter. split.
    + by apply submitted_typed_control; [apply Hp|].
    + apply list_elem_of_fmap. eauto.
Qed.

Lemma pristine_record_dom cs :
  Forall pristine cs → dom (record cs) = list_to_set (textual_names cs).
Proof. apply (filled_record_dom []). Qed.

Lemma mount_form_pristine v : Forall pristine (mount_form (component_form v)).
Proof. destruct v; compute_done. Qed.

End Fill.

(** ** Submissions *)

(** C1.  Two checkboxes of one name: the entry list of the form holds
    both selected options, in tree order, but [data[key] = value]
    overwrites, so the record keeps one string under [projectGoals], the
    option that comes last in the form, in whichever order the two were
    ticked; this is so in both variants. *)
Theorem C1_repeated_name_keeps_last_option :
  let en := mount_form En.UniversityIntakeFormEn in
  let ar := mount_form Ar.UniversityIntakeForm in
  let en_checked := user_actions en
    [ToggleCheckbox "projectGoals" "Reduce staff workload";
     ToggleCheckbox "projectGoals" "Improve service quality"] in
  let en_checked' := user_actions en
    [ToggleCheckbox "projectGoals" "Improve service quality";
     ToggleCheckbox "projectGoals" "Reduce staff workload"] in
  let ar_checked := user_actions ar
    [ToggleCheckbox "projectGoals" "تقليل ضغط الموظفين";
     ToggleCheckbox "projectGoals" "رفع جودة الخدمة"] in
  filter (λ e, e.1 = "projectGoals") (FormData en_checked)
    = [("projectGoals", "Reduce staff workload");
       ("projectGoals", "Improve service quality")]
  ∧ submission UniversityIntakeFormEn en_checked !! "projectGoals"
    = Some "Improve service quality"
  ∧ submission UniversityIntakeFormEn en_checked' !! "projectGoals"
    = Some "Improve service quality"
  ∧ submission UniversityIntakeForm ar_checked !! "projectGoals"
    = Some "رفع جودة الخدمة".
Proof.
  intros en ar en_checked en_checked' ar_checked.
  split; [|split; [|split]]; vm_compute; reflexivity.
Qed.




(** C3.  Submitting the freshly mounted Arabic form raises nothing:
    [handleSubmit] prevents the default navigation and logs a record in
    which every key maps to the empty string, no radio or checkbox name
    occurs, and the keys are the names of the text-like fields. *)
Theorem C3_empty_arabic_submission :
  let cs := mount_form Ar.UniversityIntakeForm in
  let data := submission UniversityIntakeForm cs in
  Ar.handleSubmit cs
    = {| defaultPrevented := true;
         logged := [("Submitted intake form:", data)] |}
  ∧ perform (H:=unit) (OpSubmit UniversityIntakeForm cs) = Normal tt
  ∧ map_Forall (λ _ value, value = "") data
  ∧ Forall (λ k, data !! k = None) (checkable_names cs)
  ∧ dom data = list_to_set (textual_names cs).
Proof.
  intros cs data.
  split; [exact (handleSubmit_logs UniversityIntakeForm cs)|].
  split; [reflexivity|]. split; [compute_done|]. split; [compute_done|].
  subst data. rewrite submission_record.
  exact (pristine_record_dom cs (mount_form_pristine UniversityIntakeForm)).
Qed.

(** ** The language switch *)

Section Language.
Context {H : Type} (env : GlobalEnv H).
Implicit Types (s : AppState H) (e : Event) (es : list Event).
Implicit Types (l : AppLanguage).

Lemma useLanguage_in_provider l :
  useLanguage (LanguageProvider l)
  = Normal {| language := l; setLanguage := λ l' _, l' |}.
Proof. reflexivity. Qed.

Lemma App_view l :
  ∃ view, App l = Normal view ∧ mounts view = [variant_of l].
Proof. destruct l; eexists; split; reflexivity. Qed.

Lemma mounted_variant s : mounted s = [variant_of (cell s)].
Proof. unfold mounted. by destruct (App_view (cell s)) as (view & -> & ->). Qed.

Lemma variant_of_inj l l' : variant_of l = variant_of l' → l = l'.
Proof. by destruct l, l'. Qed.

(** [handlePrintAsPdf] completes normally in every global scope: without
    [window] it does nothing, with it it calls [window.print()] once. *)
Lemma handlePrintAsPdf_normal c (h : H) :
  component_handlePrintAsPdf c env h
  = Normal (tt, match window env with Some w => print w h | None => h end).
Proof. destruct c, env as [[w|]]; reflexivity. Qed.

Lemma step_click s l :
  step env s (Click l)
  = {| cell := l;
       form_state := if bool_decide (l = cell s) then form_state s
                     else fresh_dom [variant_of l];
       console := console s; host := host s; uncaught := uncaught s |}.
Proof.
  unfold step. rewrite useLanguage_in_provider. cbn [setLanguage].
  destruct (App_view l) as (view & -> & ->). rewrite mounted_variant.
  f_equal. repeat case_bool_decide; try done.
  - by destruct l, (cell s).
  - congruence.
Qed.

Lemma step_print s :
  step env s PrintAsPdf
  = {| cell := cell s; form_state := form_state s; console := console s;
       host := match window env with
               | Some w => print w (host s)
               | None => host s
               end;
       uncaught := uncaught s |}.
Proof.
  unfold step. rewrite mounted_variant, handlePrintAsPdf_normal. done.
Qed.

(** Only a click on the switcher writes the state cell. *)
Lemma step_cell s e :
  cell (step env s e) = match e with Click l => l | _ => cell s end.
Proof.
  destruct e as [l|a| |]; [by rewrite step_click|done|done|by rewrite step_print].
Qed.

Lemma step_uncaught s e : uncaught (step env s e) = uncaught s.
Proof.
  destruct e as [l|a| |]; [by rewrite step_click|done|done|by rewrite step_print].
Qed.

Lemma run_snoc s es e : run env s (es ++ [e]) = step env (run env s es) e.
Proof. unfold run. by rewrite foldl_app. Qed.

Lemma clicks_snoc es e :
  clicks (es ++ [e]) = clicks es ++ match e with Click l => [l] | _ => [] end.
Proof. unfold clicks. rewrite flat_map_app. simpl. by rewrite app_nil_r. Qed.

Lemma run_cell s es : cell (run env s es) = default (cell s) (last (clicks es)).
Proof.
  induction es as [|e es IH] using rev_ind; [done|].
  rewrite run_snoc, step_cell, clicks_snoc.
  destruct e; rewrite ?app_nil_r, ?last_snoc; done.
Qed.

Lemma run_uncaught s es : uncaught (run env s es) = uncaught s.
Proof.
  induction es as [|e es IH] using rev_ind; [done|].
  by rewrite run_snoc, step_uncaught.
Qed.

Lemma act_on_signature a c :
  (ctl_kind (act_on a c), ctl_name (act_on a c)) = (ctl_kind c, ctl_name c).
Proof. destruct a; simpl; by destruct (_ && _). Qed.

Lemma act_on_name a c : ctl_name (act_on a c) = ctl_name c.
Proof. exact (f_equal snd (act_on_signature a c)). Qed.

Lemma user_action_signature cs a : signature (user_action cs a) = signature cs.
Proof.
  unfold user_action. destruct (applicable a cs); [|done].
  unfold signature. rewrite <- list_fmap_compose.
  apply list_fmap_ext. intros _ c _. apply act_on_signature.
Qed.

Lemma user_actions_signature cs acts :
  signature (user_actions cs acts) = signature cs.
Proof.
  revert cs. induction acts as [|a acts IH]; intros cs; [done|].
  change (user_actions cs (a :: acts))
    with (user_actions (user_action cs a) acts).
  by rewrite IH, user_action_signature.
Qed.

(** The controls on screen are always those of the mounted variant. *)
Lemma step_signature s e :
  signature (form_state s) = signature (fresh_dom (mounted s)) →
  signature (form_state (step env s e))
  = signature (fresh_dom (mounted (step env s e))).
Proof.
  intros Hs. rewrite !mounted_variant in *. rewrite step_cell.
  destruct e as [l|a| |].
  - rewrite step_click. cbn [form_state]. case_bool_decide; by subst.
  - cbn [step form_state]. by rewrite user_action_signature.
  - done.
  - by rewrite step_print.
Qed.

Lemma init_mounted (h : H) :
  form_state (init h) = fresh_dom (mounted (init h)).
Proof.
  rewrite mounted_variant. unfold init. cbn [form_state cell].
  by destruct (App_view useState_initial) as (view & -> & ->).
Qed.

Lemma run_signature (h : H) es :
  signature (form_state (run env (init h) es))
  = signature (fresh_dom (mounted (run env (init h) es))).
Proof.
  induction es as [|e es IH] using rev_ind.
  - change (run env (init h) []) with (init h). by rewrite <- init_mounted.
  - rewrite run_snoc. by apply step_signature.
Qed.

(** The two variants do not show the same titles and labels. *)
Lemma titles_labels_differ l l' :
  l ≠ l' →
  form_titles_labels (component_form (variant_of l))
  ≠ form_titles_labels (component_form (variant_of l')).
Proof.
  destruct l, l'; intros Hl Heq; [done|discriminate Heq..|done].
Qed.

End Language.

(** C4.  The language cell starts as ['ar']; an event writes it only if
    it is a click on the switcher, which stores the clicked language; so
    after any sequence of events the active language is the argument of
    the last click, or ['ar'] without one.  In every state reached
    exactly one form component is mounted, the Arabic one exactly when
    the language is ['ar'], and the controls on screen are those of that
    variant. *)
Theorem C4_language_state {H} (env : GlobalEnv H) (h : H) (es : list Event) :
  let s := run env (init h) es in
  cell (init h) = ar
  ∧ (∀ (s0 : AppState H) e,
       cell (step env s0 e) = match e with Click l => l | _ => cell s0 end)
  ∧ cell s = default ar (last (clicks es))
  ∧ (∃ c, mounted s = [c] ∧ (c = UniversityIntakeForm ↔ cell s = ar))
  ∧ signature (form_state s) = signature (fresh_dom (mounted s)).
Proof.
  intros s. split; [reflexivity|]. split; [apply step_cell|].
  split; [apply (run_cell env (init h) es)|]. split.
  - exists (variant_of (cell s)). split; [apply mounted_variant|].
    by destruct (cell s).
  - apply run_signature.
Qed.

(** C5.  [useLanguage] outside a provider throws at once, with its
    message; under [LanguageProvider] it returns the current language and
    the setter and does not throw.  Running any operation of the system
    throws exactly when it reads the language context outside a provider,
    and the running application never meets an uncaught error. *)
Theorem C5_useLanguage_fails_only_outside_provider :
  useLanguage createContext_default
    = Throw "useLanguage must be used within a LanguageProvider"
  ∧ (∀ cell, useLanguage (LanguageProvider cell)
             = Normal {| language := cell; setLanguage := λ l _, l |})
  ∧ (∀ H (op : Operation H),
       perform op = match context_read op with
                    | Some None =>
                        Throw "useLanguage must be used within a LanguageProvider"
                    | _ => Normal tt
                    end)
  ∧ (∀ H (env : GlobalEnv H) (h : H) es, uncaught (run env (init h) es) = []).
Proof.
  split; [reflexivity|]. split; [reflexivity|]. split.
  - intros H [[v|]|[v|]|v l c|c cs|c env h]; try reflexivity.
    unfold perform. by rewrite handlePrintAsPdf_normal.
  - intros H env h es. by rewrite run_uncaught.
Qed.


(** C9.  From any state, switching to the other language, doing there
    whatever does not touch the switcher, and switching back shows the
    section titles and field labels it showed at first, which are not
    those shown in between; each switch mounts the variant afresh, so
    nothing entered in one variant is carried into the other. *)
Theorem C9_language_round_trip {H} (env : GlobalEnv H) (s : AppState H)
    (l : AppLanguage) (es : list Event) :
  l ≠ cell s →
  clicks es = [] →
  let there := step env s (Click l) in
  let back := step env (run env there es) (Click (cell s)) in
  cell back = cell s
  ∧ rendered_titles_labels back = rendered_titles_labels s
  ∧ rendered_titles_labels (run env there es) ≠ rendered_titles_labels s
  ∧ form_state there = fresh_dom (mounted there)
  ∧ form_state back = fresh_dom (mounted back).
Proof.
  intros Hl Hes there back.
  assert (cell there = l) as Hthere by (subst there; by rewrite step_click).
  assert (cell (run env there es) = l) as Haway.
  { by rewrite run_cell, Hes, Hthere. }
  assert (cell back = cell s) as Hback by (subst back; by rewrite step_click).
  split; [done|]. split; [|split; [|split]].
  - unfold rendered_titles_labels. by rewrite !mounted_variant, Hback.
  - unfold rendered_titles_labels. rewrite !mounted_variant, Haway.
    cbn [flat_map]. rewrite !app_nil_r. by apply titles_labels_differ.
  - rewrite mounted_variant, Hthere. subst there. rewrite step_click.
    cbn [form_state]. by rewrite bool_decide_eq_false_2.
  - rewrite mounted_variant, Hback. subst back. rewrite step_click.
    cbn [form_state]. rewrite Haway. by rewrite bool_decide_eq_false_2.
Qed.

Lemma C9_language_round_trip_witness :
  let env : GlobalEnv unit := {| window := None |} in
  let s := init tt in
  let es := [Edit (TypeText "universityName" "Future University"); Submit] in
  en ≠ cell s
  ∧ clicks es = []
  ∧ rendered_titles_labels
      (step env (run env (step env s (Click en)) es) (Click (cell s)))
    = rendered_titles_labels s.
Proof.
  intros env s es.
  assert (en ≠ cell s) as Hl by discriminate.
  assert (clicks es = []) as Hes by reflexivity.
  split; [exact Hl|split; [exact Hes|]].
  exact (proj1 (proj2 (C9_language_round_trip env s en es Hl Hes))).
Defined.

(** ** The Yes/No radio pair *)

Section YesNo.
Implicit Types (c : Control) (cs : list Control) (a : UserAction).








(** In both forms every Yes/No group has its name to itself. *)
Lemma yesno_names_own_group v :
  Forall (λ name, named name (mount_form (component_form v))
                  = mount (YesNoGroup_of v name))
         (yesno_names (mount_form (component_form v))).
Proof. destruct v; compute_done. Qed.





End YesNo.



(** ** The two variants side by side *)

(** C8.  Each variant renders thirteen [FormSection]s; once every piece
    of text is erased the two trees are the same tree, so section by
    section they have the same controls of the same kinds in the same
    order, and the option lists have the same lengths; the text
    direction differs.  No user action adds, removes or alters a control
    of a mounted form: its controls are those of the tree written in the
    source. *)
Theorem C8_variants_structurally_identical :
  length (sections Ar.UniversityIntakeForm) = 13
  ∧ length (sections En.UniversityIntakeFormEn) = 13
  ∧ map skeleton (children Ar.UniversityIntakeForm)
    = map skeleton (children En.UniversityIntakeFormEn)
  ∧ section_kinds Ar.UniversityIntakeForm
    = section_kinds En.UniversityIntakeFormEn
  ∧ length <$> option_lists UniversityIntakeForm
    = length <$> option_lists UniversityIntakeFormEn
  ∧ dir Ar.UniversityIntakeForm = rtl
  ∧ dir En.UniversityIntakeFormEn = ltr
  ∧ (∀ v acts,
       signature (user_actions (mount_form (component_form v)) acts)
       = signature (mount_form (component_form v))).
Proof.
  split; [vm_compute; reflexivity|]. split; [vm_compute; reflexivity|].
  split; [vm_compute; reflexivity|]. split; [vm_compute; reflexivity|].
  split; [vm_compute; reflexivity|]. split; [reflexivity|].
  split; [reflexivity|]. intros v acts. apply user_actions_signature.
Qed.

Section Names.
Implicit Types (c : Control) (cs : list Control).

(** The name of a textual control is a key of every record. *)
Lemma textual_in_record_dom cs kind k :
  (kind, k) ∈ signature cs → is_textual kind → k ≠ "" → k ∈ dom (record cs).
Proof.
  intros (c & [= -> ->] & Hin)%list_elem_of_fmap Hk Hn.
  rewrite record_dom. apply elem_of_list_to_set, list_elem_of_fmap.
  exists c. split; [done|]. apply list_elem_of_filter. split; [|done].
  split; [done|]. unfold is_textual in Hk. by destruct (is_checkable _).
Qed.

Lemma always_submitted v acts kind k :
  (kind, k) ∈ signature (mount_form (component_form v)) →
  is_textual kind → k ≠ "" →
  k ∈ dom (submission v (user_actions (mount_form (component_form v)) acts)).
Proof.
  intros Hin Hk Hn. rewrite submission_record.
  apply (textual_in_record_dom _ kind); [|done..].
  by rewrite user_actions_signature.
Qed.

Lemma elem_of_derived_keys v (data : gmap string string) k :
  k ∈ derived_keys v data ↔ k ∈ option_derived_names v ∧ k ∈ dom data.
Proof. unfold derived_keys. by rewrite elem_of_filter. Qed.

Lemma shared_option_derived_names k :
  k ∈ option_derived_names UniversityIntakeForm →
  k ∈ option_derived_names UniversityIntakeFormEn →
  k = "dept-IT-daily" ∨ k = "dept-IT-offhours".
Proof.
  intros Har Hen.
  assert (Forall (λ k, k ∈ option_derived_names UniversityIntakeFormEn →
                       k = "dept-IT-daily" ∨ k = "dept-IT-offhours")
                 (option_derived_names UniversityIntakeForm)) as Hall
    by compute_done.
  rewrite Forall_forall in Hall. by apply Hall.
Qed.

End Names.

(** C10, as stated, fails: the department ["IT"] is spelled the same in
    both option lists, so [dept-IT-daily] is an option-derived name of
    both variants, and the records of the two empty submissions both
    have it as a key: their option-derived keys are not disjoint. *)
Lemma C10_counterexample :
  let ra := submission UniversityIntakeForm
              (mount_form Ar.UniversityIntakeForm) in
  let re := submission UniversityIntakeFormEn
              (mount_form En.UniversityIntakeFormEn) in
  "dept-IT-daily" ∈ derived_keys UniversityIntakeForm ra
  ∧ "dept-IT-daily" ∈ derived_keys UniversityIntakeFormEn re
  ∧ ¬ (derived_keys UniversityIntakeForm ra
       ## derived_keys UniversityIntakeFormEn re).
Proof.
  intros ra re.
  assert ("dept-IT-daily" ∈ derived_keys UniversityIntakeForm ra) as Har.
  { apply elem_of_derived_keys. split; [compute_done|].
    subst ra. rewrite submission_record.
    apply (textual_in_record_dom _ (KInput number));
      [compute_done|exact I|discriminate]. }
  assert ("dept-IT-daily" ∈ derived_keys UniversityIntakeFormEn re) as Hen.
  { apply elem_of_derived_keys. split; [compute_done|].
    subst re. rewrite submission_record.
    apply (textual_in_record_dom _ (KInput number));
      [compute_done|exact I|discriminate]. }
  split; [exact Har|]. split; [exact Hen|].
  intros Hdisj. exact (Hdisj _ Har Hen).
Qed.

(** C10, amended.  Whatever is entered in the two variants, the
    option-derived keys their records have in common are exactly
    [dept-IT-daily] and [dept-IT-offhours], the department ["IT"] being
    spelled the same in both option lists; every other option-derived
    name belongs to one variant only.  The hard-coded names are the same
    in both variants, and the names the two forms share are the
    hard-coded ones and these two. *)
Theorem C10_shared_field_names (acts_ar acts_en : list UserAction) :
  let ra := submission UniversityIntakeForm
              (user_actions (mount_form Ar.UniversityIntakeForm) acts_ar) in
  let re := submission UniversityIntakeFormEn
              (user_actions (mount_form En.UniversityIntakeFormEn) acts_en) in
  derived_keys UniversityIntakeForm ra ∩ derived_keys UniversityIntakeFormEn re
    = {["dept-IT-daily"; "dept-IT-offhours"]}
  ∧ hard_coded_names UniversityIntakeForm
    = hard_coded_names UniversityIntakeFormEn
  ∧ list_difference
      (list_intersection (names (mount_form Ar.UniversityIntakeForm))
                         (names (mount_form En.UniversityIntakeFormEn)))
      (hard_coded_names UniversityIntakeForm)
    = ["dept-IT-daily"; "dept-IT-offhours"].
Proof.
  intros ra re. split; [|split; vm_compute; reflexivity].
  subst ra re.
  change Ar.UniversityIntakeForm with (component_form UniversityIntakeForm).
  change En.UniversityIntakeFormEn with (component_form UniversityIntakeFormEn).
  apply set_eq. intros k.
  rewrite elem_of_intersection, !elem_of_derived_keys.
  rewrite elem_of_union, !elem_of_singleton. split.
  - intros [[Har _] [Hen _]]. by apply shared_option_derived_names.
  - intros [->| ->].
    + split; (split; [compute_done|]).
      * apply (always_submitted _ _ (KInput number));
          [compute_done|exact I|discriminate].
      * apply (always_submitted _ _ (KInput number));
          [compute_done|exact I|discriminate].
    + split; (split; [compute_done|]).
      * apply (always_submitted _ _ (KInput number));
          [compute_done|exact I|discriminate].
      * apply (always_submitted _ _ (KInput number));
          [compute_done|exact I|discriminate].
Qed.

(** ** More on the record of a submission *)

Section RecordLaws.
Implicit Types (c : Control) (cs : list Control).

Lemma record_lookup_last cs k :
  record cs !! k
  = last (ctl_value <$> filter (λ c, submitted c ∧ ctl_name c = k) cs).
Proof.
  induction cs as [|c cs IH] using rev_ind; [done|].
  rewrite record_snoc, filter_app, fmap_app. case_decide as Hs.
  - destruct (decide (ctl_name c = k)) as [Hk|Hk].
    + rewrite filter_cons_True, filter_nil by done.
      rewrite Hk, lookup_insert_eq. simpl. by rewrite last_snoc.
    + rewrite filter_cons_False, filter_nil by tauto.
      rewrite lookup_insert_ne by done. simpl. by rewrite app_nil_r.
  - rewrite filter_cons_False, filter_nil by tauto.
    simpl. by rewrite app_nil_r.
Qed.



End RecordLaws.


(** X2.  The record never holds anything a control did not supply: each
    of its entries comes from a named control of that name and value
    that is either textual or checked; no key is the empty name. *)
Theorem X2_record_entries_come_from_controls (cs : list Control) :
  map_Forall (λ k v, ∃ c, c ∈ cs ∧ submitted c
                          ∧ ctl_name c = k ∧ ctl_value c = v ∧ k ≠ "")
             (record cs).
Proof.
  intros k v Hkv. rewrite record_lookup_last in Hkv.
  apply last_Some_elem_of in Hkv.
  apply list_elem_of_fmap in Hkv as (c & -> & Hc).
  apply list_elem_of_filter in Hc as [[Hs <-] Hin].
  exists c. repeat split; try done; apply Hs.
Qed.


(** ** More on the running application *)

Section Running.
Context {H : Type} (env : GlobalEnv H).
Implicit Types (s : AppState H) (e : Event) (es : list Event).

Lemma step_submit s :
  step env s Submit
  = {| cell := cell s; form_state := form_state s;
       console := console s
         ++ [(console_message (variant_of (cell s)),
              submission (variant_of (cell s)) (form_state s))];
       host := host s; uncaught := uncaught s |}.
Proof.
  unfold step. rewrite mounted_variant. cbn [flat_map].
  by rewrite handleSubmit_logs, app_nil_r.
Qed.

Lemma step_console_length s e :
  length (console (step env s e))
  = length (console s) + match e with Submit => 1 | _ => 0 end.
Proof.
  destruct e as [l|a| |].
  - rewrite step_click. cbn [console]. lia.
  - cbn [step console]. lia.
  - rewrite step_submit. cbn [console]. rewrite length_app. simpl. lia.
  - rewrite step_print. cbn [console]. lia.
Qed.

Lemma submits_snoc es e :
  submits (es ++ [e]) = submits es + match e with Submit => 1 | _ => 0 end.
Proof.
  unfold submits. rewrite flat_map_app, length_app. by destruct e.
Qed.

Lemma prints_snoc es e :
  prints (es ++ [e]) = prints es + match e with PrintAsPdf => 1 | _ => 0 end.
Proof.
  unfold prints. rewrite flat_map_app, length_app. by destruct e.
Qed.

Lemma step_host s e :
  host (step env s e)
  = match e with PrintAsPdf => print_once env (host s) | _ => host s end.
Proof.
  destruct e as [l|a| |]; [by rewrite step_click|done|done|].
  by rewrite step_print.
Qed.

End Running.

(** X4.  A submission changes neither the language, nor the form, nor
    the host: it appends to the console one entry, the message of the
    mounted variant with the record of the form as it stands.  So after
    any sequence of events the console holds as many entries as there
    were submissions. *)
Theorem X4_one_console_entry_per_submission {H} (env : GlobalEnv H) (h : H)
    (es : list Event) :
  (∀ s : AppState H,
     step env s Submit
     = {| cell := cell s; form_state := form_state s;
          console := console s
            ++ [(console_message (variant_of (cell s)),
                 record (form_state s))];
          host := host s; uncaught := uncaught s |})
  ∧ length (console (run env (init h) es)) = submits es.
Proof.
  split.
  - intros s. rewrite step_submit. by rewrite submission_record.
  - induction es as [|e es IH] using rev_ind; [done|].
    by rewrite run_snoc, step_console_length, submits_snoc, IH.
Qed.

(** X5.  A click on the switcher button of the language already active
    changes nothing at all: the form stays mounted with everything
    entered in it. *)
Theorem X5_click_on_active_language_is_noop {H} (env : GlobalEnv H)
    (s : AppState H) :
  step env s (Click (cell s)) = s.
Proof.
  rewrite step_click. rewrite bool_decide_eq_true_2 by done. by destruct s.
Qed.

(** X6.  Whatever the language, [Home] under the provider draws two
    switcher buttons, for ['ar'] and ['en'] in this order, highlights
    exactly the one of the active language, gives the heading block the
    direction of that language, and mounts the form of that language. *)
Theorem X6_switcher_highlights_active_language (l : AppLanguage) :
  ∃ view,
    App l = Normal view
    ∧ switcher view = [(ar, bool_decide (l = ar)); (en, bool_decide (l = en))]
    ∧ directions view = [dir (component_form (variant_of l))]
    ∧ mounts view = [variant_of l].
Proof. destruct l; eexists; repeat split. Qed.

(** X7.  The print button is the only thing that reaches the host: after
    any sequence of events the host has seen one call of [window.print]
    for each click on the button, and none at all when there is no
    [window]. *)
Theorem X7_one_print_call_per_click {H} (env : GlobalEnv H) (h : H)
    (es : list Event) :
  host (run env (init h) es) = Nat.iter (prints es) (print_once env) h
  ∧ match window env with
    | Some w => host (run env (init h) es) = Nat.iter (prints es) (print w) h
    | None => host (run env (init h) es) = h
    end.
Proof.
  assert (host (run env (init h) es) = Nat.iter (prints es) (print_once env) h)
    as Hrun.
  { induction es as [|e es IH] using rev_ind; [done|].
    rewrite run_snoc, step_host, prints_snoc, IH.
    destruct e; rewrite ?Nat.add_0_r, ?Nat.add_1_r; done. }
  split; [exact Hrun|]. rewrite Hrun. clear Hrun. unfold print_once.
  destruct (window env) as [w|]; [done|].
  induction (prints es) as [|n IH]; [done|]. simpl. by rewrite IH.
Qed.

(** ** What is entered reaches the record *)

Section Entered.
Implicit Types (c : Control) (cs : list Control) (a : UserAction).

Lemma act_on_attrs a c : attrs (act_on a c) = attrs c.
Proof.
  destruct c as [k n x b]. destruct a as [m v|m v|m v]; unfold attrs; simpl.
  - destruct (is_textual k) eqn:Hk; simpl; [|done].
    case_bool_decide; simpl; [|done].
    unfold is_textual in Hk. by destruct (is_checkable k).
  - by destruct (_ && _).
  - by destruct (_ && _).
Qed.

Lemma user_action_attrs cs a : attrs <$> user_action cs a = attrs <$> cs.
Proof.
  unfold user_action. destruct (applicable a cs); [|done].
  rewrite <- list_fmap_compose. apply list_fmap_ext.
  intros _ c _. apply act_on_attrs.
Qed.

Lemma user_actions_attrs cs acts : attrs <$> user_actions cs acts = attrs <$> cs.
Proof.
  revert cs. induction acts as [|a acts IH]; intros cs; [done|].
  change (user_actions cs (a :: acts))
    with (user_actions (user_action cs a) acts).
  by rewrite IH, user_action_attrs.
Qed.

Lemma named_length_signature name cs :
  length (named name cs) = length (filter (λ x, x.2 = name) (signature cs)).
Proof.
  induction cs as [|c cs IH]; [done|]. unfold named, signature in *.
  rewrite fmap_cons. destruct (decide (ctl_name c = name)) as [Hc|Hc].
  - rewrite !filter_cons_True by done. simpl. by rewrite IH.
  - by rewrite !filter_cons_False by done.
Qed.

Lemma signature_elem cs k n :
  (k, n) ∈ signature cs ↔ ∃ c, c ∈ cs ∧ ctl_kind c = k ∧ ctl_name c = n.
Proof.
  unfold signature. rewrite list_elem_of_fmap. split.
  - intros (c & [= -> ->] & Hin). eauto.
  - intros (c & Hin & <- & <-). eauto.
Qed.

(** In both forms a textual control has a name, and has it to itself. *)
Lemma textual_names_own v :
  Forall (λ c, is_textual (ctl_kind c) →
               ctl_name c ≠ ""
               ∧ length (named (ctl_name c) (mount_form (component_form v))) = 1)
         (mount_form (component_form v)).
Proof. destruct v; compute_done. Qed.

(** In both forms a radio button has a name, shared only with radio
    buttons. *)
Lemma radio_names_own v :
  Forall (λ c, ctl_kind c = KInput radio →
               ctl_name c ≠ ""
               ∧ Forall (λ c', ctl_name c' = ctl_name c →
                               ctl_kind c' = KInput radio)
                        (mount_form (component_form v)))
         (mount_form (component_form v)).
Proof. destruct v; compute_done. Qed.

End Entered.

(** X8.  In either variant, whatever the user has done to the form,
    every text-like field (text, number, date, tel, email, textarea) is
    in the record of the submission under its own name with its current
    value: no text entry is dropped or overwritten by another field. *)
Theorem X8_text_fields_always_reach_record (v : Component)
    (acts : list UserAction) (c : Control) :
  c ∈ user_actions (mount_form (component_form v)) acts →
  is_textual (ctl_kind c) →
  submission v (user_actions (mount_form (component_form v)) acts)
    !! ctl_name c = Some (ctl_value c).
Proof.
  set (form := mount_form (component_form v)).
  set (cs := user_actions form acts). intros Hin Hk.
  assert (signature cs = signature form) as Hsig
    by apply user_actions_signature.
  assert ((ctl_kind c, ctl_name c) ∈ signature form) as Hc.
  { rewrite <- Hsig. apply signature_elem. eauto. }
  apply signature_elem in Hc as (c0 & Hin0 & Hk0 & Hn0).
  pose proof (textual_names_own v) as Hown. rewrite Forall_forall in Hown.
  destruct (Hown c0 Hin0) as [Hname Hone]; [by rewrite Hk0|].
  rewrite Hn0 in Hname, Hone. fold form in Hone.
  rewrite named_length_signature, <- Hsig, <- named_length_signature in Hone.
  destruct (named (ctl_name c) cs) as [|x [|y l]] eqn:Hnamed; try done.
  assert (∀ c', c' ∈ cs → ctl_name c' = ctl_name c → c' = x) as Hx.
  { intros c' Hin' Hn'.
    assert (c' ∈ named (ctl_name c) cs) as Hel
      by (by apply list_elem_of_filter).
    rewrite Hnamed in Hel. by apply list_elem_of_singleton in Hel. }
  rewrite submission_record. apply record_lookup_agree; [done| |].
  - split; [done|]. unfold is_textual in Hk. by destruct (is_checkable _).
  - intros c' Hin' _ Hn'. by rewrite (Hx c' Hin' Hn'), (Hx c Hin eq_refl).
Qed.

Lemma X8_text_fields_always_reach_record_witness :
  let v := UniversityIntakeForm in
  let acts := [TypeText "phone" "+966500000000";
               ToggleCheckbox "channels" "صوت + SMS";
               TypeText "phone" "+966511111111";
               SelectRadio "pricing-sla" "yes"] in
  let c := {| ctl_kind := KInput tel; ctl_name := "phone";
              ctl_value := "+966511111111"; ctl_checked := false |} in
  c ∈ user_actions (mount_form (component_form v)) acts
  ∧ is_textual (ctl_kind c)
  ∧ submission v (user_actions (mount_form (component_form v)) acts)
      !! "phone" = Some "+966511111111".
Proof.
  intros v acts c.
  assert (c ∈ user_actions (mount_form (component_form v)) acts) as Hin
    by compute_done.
  assert (is_textual (ctl_kind c)) as Hk by exact I.
  split; [exact Hin|split; [exact Hk|]].
  exact (X8_text_fields_always_reach_record v acts c Hin Hk).
Defined.

(** X9.  In either variant, whatever was done before, once the user
    clicks a radio button of the form the record of the submission holds
    the value of that button under the name of its group: the last
    choice made in a group is the one submitted. *)
Theorem X9_selected_radio_reaches_record (v : Component) (name value : string)
    (acts : list UserAction) :
  radio_button name value false ∈ mount_form (component_form v) →
  submission v
    (user_action (user_actions (mount_form (component_form v)) acts)
                 (SelectRadio name value))
    !! name = Some value.
Proof.
  set (form := mount_form (component_form v)).
  set (cs1 := user_actions form acts). intros Hin0.
  pose proof (radio_names_own v) as Hown. rewrite Forall_forall in Hown.
  destruct (Hown _ Hin0 eq_refl) as [Hname Hgroup]. simpl in Hname, Hgroup.
  fold form in Hgroup. rewrite Forall_forall in Hgroup.
  assert (attrs <$> cs1 = attrs <$> form) as Hattrs
    by apply user_actions_attrs.
  assert (signature cs1 = signature form) as Hsig
    by apply user_actions_signature.
  assert (∃ b, radio_button name value b ∈ cs1) as [b Hin1].
  { assert (attrs (radio_button name value false) ∈ attrs <$> cs1) as Hel.
    { rewrite Hattrs. apply list_elem_of_fmap. eauto. }
    apply list_elem_of_fmap in Hel as ([k n x b'] & Heq & Hel).
    unfold attrs in Heq. simpl in Heq.
    injection Heq as <- <- Hx. simpl in Hx. subst x. by exists b'. }
  assert (∀ c, c ∈ cs1 → ctl_name c = name → ctl_kind c = KInput radio)
    as Hradio.
  { intros c Hc Hn.
    assert ((ctl_kind c, name) ∈ signature form) as Hel.
    { rewrite <- Hsig. apply signature_elem. eauto. }
    apply signature_elem in Hel as (c0 & Hc0 & <- & Hn0). by apply Hgroup. }
  assert (applicable (SelectRadio name value) cs1 = true) as Happ.
  { apply existsb_exists. exists (radio_button name value b). split.
    - by apply list_elem_of_In.
    - unfold is_radio. simpl. by rewrite !bool_decide_eq_true_2. }
  unfold user_action. rewrite Happ. rewrite submission_record.
  apply (record_lookup_agree _ (radio_button name value true)).
  - apply list_elem_of_fmap. exists (radio_button name value b).
    split; [|done]. simpl. by rewrite !bool_decide_eq_true_2.
  - by split.
  - intros c' (c1 & -> & Hc1)%list_elem_of_fmap [_ Hs] Hn.
    rewrite act_on_name in Hn. simpl in Hn.
    pose proof (Hradio c1 Hc1 Hn) as Hk.
    destruct c1 as [k n x b1]. simpl in *. subst k n.
    rewrite !bool_decide_eq_true_2 in * by done. simpl in *.
    specialize (Hs I). by apply bool_decide_unpack in Hs.
Qed.

Lemma X9_selected_radio_reaches_record_witness :
  let v := UniversityIntakeFormEn in
  let acts := [SelectRadio "callcenterScope" "full-replacement";
               TypeText "mvpScope" "Admissions only"] in
  radio_button "callcenterScope" "assistant" false
    ∈ mount_form (component_form v)
  ∧ submission v
      (user_action (user_actions (mount_form (component_form v)) acts)
                   (SelectRadio "callcenterScope" "assistant"))
      !! "callcenterScope" = Some "assistant".
Proof.
  intros v acts.
  assert (radio_button "callcenterScope" "assistant" false
            ∈ mount_form (component_form v)) as Hin by compute_done.
  split; [exact Hin|].
  exact (X9_selected_radio_reaches_record v _ _ acts Hin).
Defined.

(** ** The layout wrappers *)

Section Wrappers.
Import Layout.

(** Induction on a JSX tree, with the property known of the children. *)
Lemma Node_induction (P : Node → Prop) :
  (∀ t cs, Forall P cs → P (El t cs)) →
  (∀ s, P (Txt s)) →
  (∀ type name value min max placeholder,
     P (Input type name value min max placeholder)) →
  (∀ name rows placeholder, P (Textarea name rows placeholder)) →
  (∀ cs, Forall P cs → P (Button cs)) →
  (∀ lbl hint required cs, Forall P cs → P (Dom.Field lbl hint required cs)) →
  (∀ title description cs,
     Forall P cs → P (Dom.FormSection title description cs)) →
  ∀ n, P n.
Proof.
  intros HEl HTxt HInput HTextarea HButton HField HSection.
  fix IH 1. intros [t cs|s|? ? ? ? ? ?|? ? ?|cs|? ? ? cs|? ? cs].
  - apply HEl. induction cs; constructor; [apply IH|assumption].
  - apply HTxt.
  - apply HInput.
  - apply HTextarea.
  - apply HButton. induction cs; constructor; [apply IH|assumption].
  - apply HField. induction cs; constructor; [apply IH|assumption].
  - apply HSection. induction cs; constructor; [apply IH|assumption].
Qed.

Lemma flat_map_render {A} (f : Html → list A) (g : Node → list A)
    (cs : list Node) :
  Forall (λ n, f (render n) = g n) cs →
  flat_map f (map render cs) = flat_map g cs.
Proof. induction 1 as [|n cs Hn _ IH]; [done|]. simpl. by rewrite Hn, IH. Qed.

Lemma optional_paragraph_controls x :
  flat_map controls (optional_paragraph x) = [].
Proof. destruct x as [s|]; [|done]. simpl. by case_bool_decide. Qed.

Lemma optional_paragraph_headings x :
  flat_map headings (optional_paragraph x) = [].
Proof. destruct x as [s|]; [|done]. simpl. by case_bool_decide. Qed.

End Wrappers.

(** X10.  Rendering adds no form control and loses none: for every JSX
    tree, the controls of what [FormSection], [Field] and the host
    elements render to are the controls of the tree, in the same order;
    titles, descriptions, labels, hints and the required marker are text
    only. *)
Theorem X10_wrappers_keep_controls (n : Node) :
  Layout.controls (Layout.render n) = mount n.
Proof.
  induction n as [t cs IH|s|? ? ? ? ? ?|? ? ?|cs IH|lbl hint required cs IH
                  |title description cs IH] using Node_induction;
    try done.
  - transitivity (flat_map Layout.controls (map Layout.render cs));
      [by destruct t|].
    by apply flat_map_render.
  - cbn [Layout.render Layout.Field Layout.controls flat_map mount].
    rewrite flat_map_app, optional_paragraph_controls.
    rewrite (flat_map_render _ mount) by done.
    by destruct required.
  - cbn [Layout.render Layout.FormSection Layout.controls flat_map mount].
    rewrite optional_paragraph_controls.
    rewrite (flat_map_render _ mount) by done.
    by rewrite !app_nil_r.
Qed.

(** X11.  For every JSX tree, the [h2] headings of the rendered page are
    the titles of its [FormSection]s, one heading per section, in order,
    each holding the title and nothing else; nothing else renders an
    [h2]. *)
Theorem X11_one_heading_per_section (n : Node) :
  Layout.headings (Layout.render n)
  = (λ title, [title]) <$> Layout.section_titles n.
Proof.
  induction n as [t cs IH|s|? ? ? ? ? ?|? ? ?|cs IH|lbl hint required cs IH
                  |title description cs IH] using Node_induction;
    try done.
  - transitivity (flat_map Layout.headings (map Layout.render cs));
      [by destruct t|].
    rewrite (flat_map_render _ (λ n, (λ title, [title])
                                       <$> Layout.section_titles n)) by done.
    cbn [Layout.section_titles].
    induction cs as [|c cs IHcs]; [done|]. simpl.
    rewrite fmap_app. f_equal. apply IHcs. by inversion IH.
  - cbn [Layout.render Layout.headings Layout.section_titles].
    rewrite (flat_map_render _ (λ n, (λ title, [title])
                                       <$> Layout.section_titles n)) by done.
    induction cs as [|c cs IHcs]; [done|]. simpl.
    rewrite fmap_app. f_equal. apply IHcs. by inversion IH.
  - cbn [Layout.render Layout.Field Layout.headings Layout.section_titles
         flat_map].
    rewrite flat_map_app, optional_paragraph_headings.
    rewrite (flat_map_render _ (λ n, (λ title, [title])
                                       <$> Layout.section_titles n)) by done.
    assert (flat_map Layout.headings
              (if required
               then [Layout.HEl Layout.h_span [Layout.HTxt " *"]]
               else []) = []) as -> by (by destruct required).
    simpl. clear IH.
    induction cs as [|c cs IHcs]; [done|]. simpl.
    by rewrite fmap_app, IHcs.
  - cbn [Layout.render Layout.FormSection Layout.headings
         Layout.section_titles flat_map Layout.texts].
    rewrite optional_paragraph_headings.
    rewrite (flat_map_render _ (λ n, (λ title, [title])
                                       <$> Layout.section_titles n)) by done.
    rewrite !app_nil_r. simpl. f_equal. clear IH.
    induction cs as [|c cs IHcs]; [done|]. simpl.
    by rewrite fmap_app, IHcs.
Qed.

(** X12.  In the running application the record a submission logs has
    no key that is not the name of a control of the variant on screen:
    nothing of the other variant, and nothing of a form mounted earlier,
    finds its way into it. *)
Theorem X12_logged_keys_are_fields_on_screen {H} (env : GlobalEnv H) (h : H)
    (es : list Event) :
  let s := run env (init h) es in
  dom (record (form_state s))
  ⊆ list_to_set (names (mount_form (component_form (variant_of (cell s))))).
Proof.
  intros s k. rewrite record_dom, !elem_of_list_to_set.
  unfold names. rewrite !list_elem_of_fmap.
  intros (c & -> & [_ Hin]%list_elem_of_filter).
  assert ((ctl_kind c, ctl_name c)
            ∈ signature (fresh_dom (mounted s))) as Hel.
  { subst s. rewrite <- run_signature. apply list_elem_of_fmap. eauto. }
  rewrite mounted_variant in Hel. unfold fresh_dom in Hel. simpl in Hel.
  rewrite app_nil_r in Hel.
  apply list_elem_of_fmap in Hel as (c0 & [= _ Hn] & Hin0). eauto.
Qed.
